(** * F5 Silverline integration: IP-list commands

    A shallow embedding of
    [Packs/F5Silverline/Integrations/F5Silverline/F5Silverline.py]
    and the properties of its paging, parsing and command handlers.

    Python values are embedded as the inductive [pyval]; a Python call
    that may raise returns a [result]; the handlers that talk to the
    remote service run in a small state-and-error monad whose state is
    the remote service together with the requests sent so far. *)

From Stdlib Require Import String Ascii List ZArith Bool Lia DecimalString.
Import ListNotations.

Local Open Scope list_scope.
Local Open Scope string_scope.

(** ** Python values *)

(** The JSON-shaped values the integration handles: command arguments,
    request bodies and decoded responses.  Numbers are integers (the
    arguments and the responses of this API carry no others).  A dict
    is an association list in insertion order; lookup takes the first
    binding of a key. *)
#[warnings="-register-all"]
Inductive pyval : Type :=
| PNone : pyval
| PBool (b : bool) : pyval
| PInt (z : Z) : pyval
| PStr (s : string) : pyval
| PList (l : list pyval) : pyval
| PDict (d : list (string * pyval)) : pyval.

Definition dict : Type := list (string * pyval).

(** The exceptions that occur in the module. *)
Inductive exn : Type :=
| ValueError (msg : string)
| TypeError
| AttributeError
| IndexError
| KeyError (key : string)
| DemistoException (msg : string).

Inductive result (A : Type) : Type :=
| Ok (a : A)
| Raise (e : exn).

Arguments Ok {A} a.
Arguments Raise {A} e.

Definition rbind {A B : Type} (r : result A) (k : A -> result B) : result B :=
  match r with
  | Ok a => k a
  | Raise e => Raise e
  end.

Notation "x <-- r ;; k" := (rbind r (fun x => k))
  (at level 61, r at next level, right associativity).
Notation "' pat <-- r ;; k" := (rbind r (fun x => match x with pat => k end))
  (at level 61, pat pattern, r at next level, right associativity).

(** [bool(v)]: the truth value Python gives a value in [if v]. *)
Definition truthy (v : pyval) : bool :=
  match v with
  | PNone => false
  | PBool b => b
  | PInt z => negb (Z.eqb z 0)
  | PStr s => negb (String.eqb s "")
  | PList l => match l with [] => false | _ => true end
  | PDict d => match d with [] => false | _ => true end
  end.

Fixpoint assoc (k : string) (d : dict) : option pyval :=
  match d with
  | [] => None
  | (k', v) :: d' => if String.eqb k k' then Some v else assoc k d'
  end.

(** [d.get(k, default)] on a dict. *)
Definition dict_get (d : dict) (k : string) (default : pyval) : pyval :=
  match assoc k d with
  | Some v => v
  | None => default
  end.

(** [d[k]] on a dict. *)
Definition dict_item (d : dict) (k : string) : result pyval :=
  match assoc k d with
  | Some v => Ok v
  | None => Raise (KeyError k)
  end.

(** [v.get(k)] on an arbitrary value: only a dict has the method. *)
Definition py_get (v : pyval) (k : string) : result pyval :=
  match v with
  | PDict d => Ok (dict_get d k PNone)
  | _ => Raise AttributeError
  end.

(** [isinstance(v, dict)]. *)
Definition is_dict (v : pyval) : bool :=
  match v with
  | PDict _ => true
  | _ => false
  end.

(** The elements a [for] loop sees: a list yields its elements, a
    string its characters, a dict its keys; the other values are not
    iterable. *)
Definition py_iter (v : pyval) : result (list pyval) :=
  match v with
  | PList l => Ok l
  | PStr s => Ok (map (fun c => PStr (String c "")) (list_ascii_of_string s))
  | PDict d => Ok (map (fun kv => PStr (fst kv)) d)
  | _ => Raise TypeError
  end.

(** [l[0]] on a list. *)
Definition list_item0 {A : Type} (l : list A) : result A :=
  match l with
  | x :: _ => Ok x
  | [] => Raise IndexError
  end.

(** [needle in hay] on strings. *)
Fixpoint contains (needle hay : string) : bool :=
  String.prefix needle hay ||
  match hay with
  | EmptyString => false
  | String _ hay' => contains needle hay'
  end.

Definition newline : ascii := ascii_of_nat 10.
Definition nl : string := String newline "".

(** ** Module constants *)

Definition BASE_URL : string := "/api/v1/ip_lists".

Definition TABLE_HEADERS_GET_OBJECTS : list string :=
  ["ID"; "IP"; "Expires At"; "List Target"; "Created At"; "Updated At"].

(** ** PAGE_NUMBER_PATTERN

    The pattern is [(?<=page\[number]=).*?(?=&)]: a lookbehind for the
    literal text [page[number]=], a lazy run of characters other than
    a newline, and a lookahead for [&].  [re.search] returns the match
    at the leftmost position where the pattern matches. *)

Definition PAGE_NUMBER_LOOKBEHIND : string := "page[number]=".

(** [strip_prefix p s] is what follows [p] when [s] starts with [p]. *)
Fixpoint strip_prefix (p s : string) : option string :=
  match p with
  | EmptyString => Some s
  | String a p' =>
      match s with
      | EmptyString => None
      | String b s' => if Ascii.eqb a b then strip_prefix p' s' else None
      end
  end.

(** [.*?(?=&)] anchored at the head of [s]: the lazy star takes the
    fewest characters, so the match ends before the first [&]; the dot
    does not match a newline, so a newline met before any [&] makes the
    match fail at this position. *)
Fixpoint lazy_until_amp (s : string) : option string :=
  match s with
  | EmptyString => None
  | String c s' =>
      if Ascii.eqb c "&" then Some EmptyString
      else if Ascii.eqb c newline then None
      else option_map (String c) (lazy_until_amp s')
  end.

(** [re.search(PAGE_NUMBER_PATTERN, s)], as the matched text
    ([group(0)]) or [None].  A position satisfies the lookbehind
    exactly when the lookbehind text ends there, so the scan looks for
    the text starting at each position from the left and tries the
    rest of the pattern right after it. *)
Fixpoint re_search_PAGE_NUMBER_PATTERN (s : string) : option string :=
  match s with
  | EmptyString => None
  | String _ s' =>
      match strip_prefix PAGE_NUMBER_LOOKBEHIND s with
      | Some rest =>
          match lazy_until_amp rest with
          | Some g => Some g
          | None => re_search_PAGE_NUMBER_PATTERN s'
          end
      | None => re_search_PAGE_NUMBER_PATTERN s'
      end
  end.

(** [re.search(PAGE_NUMBER_PATTERN, link).group(0)]: [re.search]
    rejects a value that is not text, and [group] is looked up on
    [None] when nothing matches. *)
Definition search_group0 (link : pyval) : result pyval :=
  match link with
  | PStr s =>
      match re_search_PAGE_NUMBER_PATTERN s with
      | Some g => Ok (PStr g)
      | None => Raise AttributeError
      end
  | _ => Raise TypeError
  end.

(** ** Paging helpers *)

Definition add_paging_to_outputs (paging_dict page_number : pyval)
  : result (pyval * pyval) :=
  link_to_current_obj <-- py_get paging_dict "self" ;;
  link_to_last_obj <-- py_get paging_dict "last" ;;
  current_page_number <--
    (if truthy link_to_current_obj then search_group0 link_to_current_obj
     else Ok page_number) ;;
  last_page_number <--
    (if truthy link_to_last_obj then search_group0 link_to_last_obj
     else Ok current_page_number) ;;
  Ok (current_page_number, last_page_number).

Definition paging_outputs_dict (current_page_number last_page_number page_size : pyval)
  : pyval :=
  PDict [("current_page_number", current_page_number);
         ("current_page_size", page_size);
         ("last_page_number", last_page_number)].

Definition NO_RESULTS_MESSAGE : string :=
  "No results were found. Please try to run the command without page_number and page_size to " ++
  "get all existing IP objects.".

(** ** Requests, client and command results *)

(** The keyword arguments [request_ip_objects] hands to
    [BaseClient._http_request]. *)
Record request : Type := mk_request {
  req_method : string;
  req_json_data : pyval;
  req_url_suffix : string;
  req_params : pyval;
  req_headers : pyval;
  req_resp_type : string
}.

Record Client : Type := mk_Client {
  base_url : string;
  verify : bool;
  _headers : pyval;
  proxy : bool
}.

(** The fields of [CommandResults] the handlers set; an unset keyword
    argument is [None]. *)
Record CommandResults : Type := mk_CommandResults {
  readable_output : string;
  outputs_prefix : option string;
  outputs_key_field : option string;
  outputs : option pyval
}.

Definition define_body_for_add_ip_command
  (list_target mask ip_address duration note tags : pyval) : pyval :=
  PDict [("list_target", list_target);
         ("data",
          PDict [("id", PStr "");
                 ("type", PStr "ip_objects");
                 ("attributes",
                  PDict [("mask", mask);
                         ("ip", ip_address);
                         ("duration", duration)]);
                 ("meta",
                  PDict [("note", note);
                         ("tags", tags)])])].

(** ** Parsing of a list response *)

(** One turn of the loop of [parse_get_ip_object_list_results]: a
    falsy element is skipped, any other must offer [get] and carry
    [attributes] and [meta] that offer [get] too. *)
Definition parse_ip_object (ip_object : pyval) : result (list pyval) :=
  if truthy ip_object then
    id <-- py_get ip_object "id" ;;
    attributes <-- py_get ip_object "attributes" ;;
    ip <-- py_get attributes "ip" ;;
    attributes <-- py_get ip_object "attributes" ;;
    expires_at <-- py_get attributes "expires_at" ;;
    attributes <-- py_get ip_object "attributes" ;;
    list_target <-- py_get attributes "list_target" ;;
    meta <-- py_get ip_object "meta" ;;
    created_at <-- py_get meta "created_at" ;;
    meta <-- py_get ip_object "meta" ;;
    updated_at <-- py_get meta "updated_at" ;;
    Ok [PDict [("ID", id);
               ("IP", ip);
               ("Expires At", expires_at);
               ("List Target", list_target);
               ("Created At", created_at);
               ("Updated At", updated_at)]]
  else Ok [].

Fixpoint parse_loop (results_data parsed_results : list pyval)
  : result (list pyval) :=
  match results_data with
  | [] => Ok parsed_results
  | ip_object :: results_data' =>
      entry <-- parse_ip_object ip_object ;;
      parse_loop results_data' (parsed_results ++ entry)%list
  end.

Definition parse_get_ip_object_list_results (results : pyval)
  : result (list pyval) :=
  results_data <-- py_get results "data" ;;
  let results_data :=
    if is_dict results_data then PList [results_data] else results_data in
  elements <-- py_iter results_data ;;
  parse_loop elements [].

(** ** Predicates on link text *)

Fixpoint has_char (c : ascii) (s : string) : bool :=
  match s with
  | EmptyString => false
  | String a s' => Ascii.eqb a c || has_char c s'
  end.

(** Some occurrence of [k] in [s] has [&] somewhere after it. *)
Fixpoint amp_after (k s : string) : bool :=
  match strip_prefix k s with
  | Some rest => has_char "&" rest
  | None => false
  end ||
  match s with
  | EmptyString => false
  | String _ s' => amp_after k s'
  end.

(** A text the lazy part of the pattern can run over: it has neither
    [&] nor a newline. *)
Definition page_value (v : string) : bool :=
  negb (has_char "&" v) && negb (has_char newline v).

(** ** Predicates on IP objects *)

(** An element of [data] the parsing loop can read: a mapping whose
    [attributes] and [meta] are mappings. *)
Definition well_formed_ip_object (ip_object : pyval) : bool :=
  match ip_object with
  | PDict d =>
      is_dict (dict_get d "attributes" PNone) && is_dict (dict_get d "meta" PNone)
  | _ => false
  end.

(** The entry the parsing loop builds from such an element, field by
    field. *)
Definition ip_object_entry (ip_object : pyval) : pyval :=
  match ip_object with
  | PDict d =>
      match dict_get d "attributes" PNone, dict_get d "meta" PNone with
      | PDict attributes, PDict meta =>
          PDict [("ID", dict_get d "id" PNone);
                 ("IP", dict_get attributes "ip" PNone);
                 ("Expires At", dict_get attributes "expires_at" PNone);
                 ("List Target", dict_get attributes "list_target" PNone);
                 ("Created At", dict_get meta "created_at" PNone);
                 ("Updated At", dict_get meta "updated_at" PNone)]
      | _, _ => PNone
      end
  | _ => PNone
  end.

(** The keys of a mapping, in order. *)
Definition keys_of (v : pyval) : list string :=
  match v with
  | PDict d => map fst d
  | _ => []
  end.

(** ** What [main] hands back *)

(** The argument of [return_results]: the text of the connectivity
    check or the results of a command. *)
Inductive command_output : Type :=
| TextOutput (message : string)
| ResultsOutput (results : CommandResults).

(** How a run of [main] ends: with [return_results] or with
    [return_error]. *)
Inductive outcome : Type :=
| Returned (output : command_output)
| Failed (message : string).

(** ** A reference environment

    Stand-ins for what the handlers take from outside the module,
    used to run them in the examples. *)

(** [str()] on the scalar values; the rendering of lists and dicts is
    left out. *)
Definition scalar_str (v : pyval) : string :=
  match v with
  | PNone => "None"
  | PBool true => "True"
  | PBool false => "False"
  | PInt z => DecimalString.NilZero.string_of_int (Z.to_int z)
  | PStr s => s
  | _ => ""
  end.

Definition digit_of (c : ascii) : option Z :=
  let n := nat_of_ascii c in
  if (48 <=? n)%nat && (n <=? 57)%nat then Some (Z.of_nat (n - 48)) else None.

Fixpoint digits_value (acc : Z) (s : string) : option Z :=
  match s with
  | EmptyString => Some acc
  | String c s' =>
      match digit_of c with
      | Some d => digits_value (10 * acc + d) s'
      | None => None
      end
  end.

(** [int()] on a run of decimal digits; any other text is rejected. *)
Definition decimal_int_of_text (s : string) : Z + string :=
  match s with
  | EmptyString => inr "invalid literal for int() with base 10: ''"
  | _ =>
      match digits_value 0 s with
      | Some z => inl z
      | None => inr ("invalid literal for int() with base 10: '" ++ s ++ "'")
      end
  end.

(** [argToList] on a list, which it returns, on a falsy value, which
    gives the empty list, and on a single value, taken as the one
    element; the splitting of text at commas is left out. *)
Definition plain_argToList (v : pyval) : list pyval :=
  match v with
  | PList l => l
  | _ => if truthy v then [v] else []
  end.

(** A table that shows its title and the number of its rows. *)
Definition title_table (name : string) (t : list pyval)
  (headers : list string) (removeNull : bool) : string :=
  "### " ++ name ++ nl ++
  scalar_str (PInt (Z.of_nat (List.length t))) ++ " rows" ++ nl.

(** A service without state that answers by the path of the request,
    and with "not found" for a path it does not know. *)
Definition table_service (t : list (string * pyval))
  (s : unit) (q : request) : result pyval * unit :=
  (match assoc (req_url_suffix q) t with
   | Some response => Ok response
   | None => Raise (DemistoException "Error in API call [404] - Not Found")
   end, s).

(** A service whose client raises on every request. *)
Definition failing_service (e : exn) (s : unit) (q : request)
  : result pyval * unit :=
  (Raise e, s).

Definition a_client : Client :=
  mk_Client "https://portal.f5silverline.com/api/v1/ip_lists" true
            (PDict [("X-Authorization-Token", PStr "token");
                    ("Content-Type", PStr "application/json")])
            false.

Definition ip_object_a : pyval :=
  PDict [("id", PStr "a");
         ("type", PStr "ip_objects");
         ("attributes",
          PDict [("ip", PStr "1.2.3.4"); ("mask", PStr "32");
                 ("duration", PInt 0); ("expires_at", PNone);
                 ("list_target", PStr "proxy")]);
         ("meta",
          PDict [("note", PStr ""); ("tags", PList []);
                 ("created_at", PStr "2021-01-01"); ("updated_at", PStr "2021-01-02")])].

Definition ip_object_b : pyval :=
  PDict [("id", PStr "b");
         ("type", PStr "ip_objects");
         ("attributes",
          PDict [("ip", PStr "5.6.7.8"); ("mask", PStr "32");
                 ("duration", PInt 0); ("expires_at", PNone);
                 ("list_target", PStr "proxy")]);
         ("meta",
          PDict [("note", PStr ""); ("tags", PList []);
                 ("created_at", PStr "2021-02-01"); ("updated_at", PStr "2021-02-02")])].

Definition entry_of (id ip created_at updated_at : string) : pyval :=
  PDict [("ID", PStr id);
         ("IP", PStr ip);
         ("Expires At", PNone);
         ("List Target", PStr "proxy");
         ("Created At", PStr created_at);
         ("Updated At", PStr updated_at)].

(** The deny list as a service: the collection and its two objects. *)
Definition denylist_service : unit -> request -> result pyval * unit :=
  table_service
    [("denylist/ip_objects",
      PDict [("data", PList [ip_object_a; ip_object_b]);
             ("links",
              PDict [("self",
                      PStr "https://h/api/v1/ip_lists/denylist/ip_objects?page[number]=1&page[size]=2");
                     ("last",
                      PStr "https://h/api/v1/ip_lists/denylist/ip_objects?page[number]=4&page[size]=2")])]);
     ("denylist/ip_objects/a", PDict [("data", ip_object_a)]);
     ("denylist/ip_objects/b", PDict [("data", ip_object_b)])].

(** A service with an empty deny list. *)
Definition empty_service : unit -> request -> result pyval * unit :=
  table_service
    [("denylist/ip_objects", PDict [("data", PList [])]);
     ("denylist/ip_objects/a", PDict [("links", PDict [])]);
     ("denylist/ip_objects/b", PDict [("data", PList [])]);
     ("denylist/ip_objects/c", PDict [("data", PDict [])])].

(** [urljoin] as plain concatenation of a text address and the
    suffix; any other address is rejected. *)
Definition join_url (base : pyval) (suffix : string) : result string :=
  match base with
  | PStr url => Ok (url ++ suffix)
  | _ => Raise TypeError
  end.

(** A text for each exception: its message when it carries one, a
    fixed text otherwise. *)
Definition exn_text (e : exn) : string :=
  match e with
  | ValueError msg => msg
  | DemistoException msg => msg
  | KeyError key => "'" ++ key ++ "'"
  | TypeError => "TypeError"
  | AttributeError => "AttributeError"
  | IndexError => "list index out of range"
  end.

(** The parameters of an instance of the integration. *)
Definition some_params : dict :=
  [("url", PStr "https://portal.f5silverline.com");
   ("token", PDict [("identifier", PStr ""); ("password", PStr "token")]);
   ("insecure", PBool false);
   ("proxy", PBool false)].

(** A service whose collection is one empty object, without
    navigation links. *)
Definition blank_page_service : unit -> request -> result pyval * unit :=
  table_service [("denylist/ip_objects", PDict [("data", PList [PDict []])])].

(** A service whose collection comes without navigation links. *)
Definition no_links_service : unit -> request -> result pyval * unit :=
  table_service [("denylist/ip_objects", PDict [("data", PList [ip_object_a])])].

(** ** The handlers *)

Section Handlers.

(** Python's [str()], as used by the f-strings of the module. *)
Variable py_str : pyval -> string.

(** Python's [int()] on text: the integer the text denotes, or the
    message of the [ValueError] it raises. *)
Variable int_of_text : string -> Z + string.

(** [argToList] of CommonServerPython, which turns an argument into a
    list. *)
Variable argToList : pyval -> list pyval.

(** [tableToMarkdown(name, t, headers, removeNull)] of
    CommonServerPython. *)
Variable tableToMarkdown : string -> list pyval -> list string -> bool -> string.

(** The remote service behind [BaseClient._http_request]: a request
    is answered with the decoded response, or the client raises, and
    the service moves to a new state. *)
Variable remote : Type.
Variable _http_request : remote -> request -> result pyval * remote.

(** [int(v)]. *)
Definition py_int (v : pyval) : result Z :=
  match v with
  | PInt z => Ok z
  | PBool b => Ok (if b then 1%Z else 0%Z)
  | PStr s =>
      match int_of_text s with
      | inl z => Ok z
      | inr msg => Raise (ValueError msg)
      end
  | _ => Raise TypeError
  end.

Definition paging_args_to_params (page_size page_number : pyval)
  : result pyval :=
  match (page_size <-- py_int page_size ;;
         page_number <-- py_int page_number ;;
         Ok (page_size, page_number)) with
  | Ok (page_size, page_number) =>
      Ok (PDict [("page[size]", PInt page_size);
                 ("page[number]", PInt page_number)])
  | Raise (ValueError _) =>
      Raise (ValueError "page_number and page_size should be numbers")
  | Raise e => Raise e
  end.

Definition handle_paging (page_number page_size : pyval)
  : result (bool * pyval) :=
  if truthy page_number && truthy page_size then
    params <-- paging_args_to_params page_size page_number ;;
    Ok (true, params)
  else Ok (false, PDict []).

Definition paging_data_to_human_readable
  (current_page_number last_page_number page_size : pyval) : string :=
  let output := "Current page number: " ++ py_str current_page_number ++ nl ++ " " in
  let last_page_number :=
    if truthy last_page_number then last_page_number else current_page_number in
  let output := output ++ "Last page number: " ++ py_str last_page_number ++ nl in
  if truthy page_size then output ++ "Current page size: " ++ py_str page_size
  else output.

(** *** Calls to the service

    The state a handler runs in: the remote service and the requests
    sent to it so far, oldest first.  An exception leaves the state
    as it was when it was raised. *)
Record world : Type := mk_world {
  service : remote;
  sent : list request
}.

Definition M (A : Type) : Type := world -> result A * world.

Definition ret {A : Type} (a : A) : M A := fun w => (Ok a, w).

Definition bind {A B : Type} (m : M A) (k : A -> M B) : M B :=
  fun w =>
    match m w with
    | (Ok a, w') => k a w'
    | (Raise e, w') => (Raise e, w')
    end.

Definition lift {A : Type} (r : result A) : M A := fun w => (r, w).

Notation "x <- m ;; k" := (bind m (fun x => k))
  (at level 61, m at next level, right associativity).
Notation "' pat <- m ;; k" := (bind m (fun x => match x with pat => k end))
  (at level 61, pat pattern, m at next level, right associativity).

Definition request_ip_objects (client : Client)
  (body : pyval) (method url_suffix : string) (params : pyval)
  (resp_type : string) : M pyval :=
  fun w =>
    let r := mk_request method body url_suffix params (_headers client) resp_type in
    let (res, service') := _http_request (service w) r in
    (res, mk_world service' (sent w ++ [r])%list).

Definition test_module (client : Client) : M string :=
  fun w =>
    match request_ip_objects client (PDict []) "GET" "denylist/ip_objects"
                             (PDict []) "json" w with
    | (Ok _, w') => (Ok "ok", w')
    | (Raise (DemistoException e), w') =>
        if contains "Unauthorized" e
        then (Ok "Authorization Error: make sure API Key is correctly set", w')
        else (Raise (DemistoException e), w')
    | (Raise e, w') => (Raise e, w')
    end.

Definition add_ip_objects_command (client : Client) (args : dict)
  : M CommandResults :=
  list_type <- lift (dict_item args "list_type") ;;
  ip_address <- lift (dict_item args "IP") ;;
  let list_target := dict_get args "list_target" (PStr "proxy-routed") in
  let mask := dict_get args "mask" (PStr "32") in
  duration <- lift (py_int (dict_get args "duration" (PInt 0))) ;;
  let note := dict_get args "note" (PStr "") in
  let tags := argToList (dict_get args "tags" (PList [])) in
  let url_suffix := py_str list_type ++ "/ip_objects" in
  let body := define_body_for_add_ip_command
                list_target mask ip_address (PInt duration) note (PList tags) in
  _ <- request_ip_objects client body "POST" url_suffix (PDict []) "content" ;;
  let human_readable :=
    "IP object with IP address: " ++ py_str ip_address ++
    " added successfully into the " ++ py_str list_type ++ " list." in
  ret (mk_CommandResults human_readable None None None).

Definition delete_ip_objects_command (client : Client) (args : dict)
  : M CommandResults :=
  list_type <- lift (dict_item args "list_type") ;;
  object_id <- lift (dict_item args "object_id") ;;
  let url_suffix := py_str list_type ++ "/ip_objects/" ++ py_str object_id in
  _ <- request_ip_objects client (PDict []) "DELETE" url_suffix (PDict []) "content" ;;
  let human_readable :=
    "IP object with ID: " ++ py_str object_id ++
    " deleted successfully from the " ++ py_str list_type ++ " list." in
  ret (mk_CommandResults human_readable None None None).

(** The loop of [get_ip_objects_by_ids], with the two lists it
    appends to. *)
Fixpoint by_ids_loop (client : Client) (object_ids : list pyval)
  (list_type params : pyval) (human_results outputs : list pyval)
  : M (list pyval * list pyval) :=
  match object_ids with
  | [] => ret (human_results, outputs)
  | object_id :: object_ids' =>
      let url_suffix := py_str list_type ++ "/ip_objects/" ++ py_str object_id in
      res <- request_ip_objects client (PDict []) "GET" url_suffix params "json" ;;
      data <- lift (py_get res "data") ;;
      let outputs := (outputs ++ [data])%list in
      parsed <- lift (parse_get_ip_object_list_results res) ;;
      first <- lift (list_item0 parsed) ;;
      by_ids_loop client object_ids' list_type params
                  (human_results ++ [first])%list outputs
  end.

Definition get_ip_objects_by_ids (client : Client) (object_ids : list pyval)
  (list_type params : pyval) : M (list pyval * list pyval) :=
  by_ids_loop client object_ids list_type params [] [].

(** The local variables of [get_ip_objects_list_command] when it
    reaches the call of [tableToMarkdown]. *)
Record list_locals : Type := mk_list_locals {
  human_results : list pyval;
  list_outputs : pyval;
  paging_data : pyval;
  paging_data_human_readable : string;
  is_paging_required : bool
}.

(** [get_ip_objects_list_command] up to the call of
    [tableToMarkdown]: the arguments, the paging parameters and the
    fetch. *)
Definition list_fetch (client : Client) (args : dict) : M list_locals :=
  list_type <- lift (dict_item args "list_type") ;;
  let object_ids := argToList (dict_get args "object_id" PNone) in
  let page_number := dict_get args "page_number" PNone in
  let page_size := dict_get args "page_size" PNone in
  let url_suffix := py_str list_type ++ "/ip_objects" in
  '(is_paging_required, params) <- lift (handle_paging page_number page_size) ;;
  match object_ids with
  | [] =>
      response <- request_ip_objects client (PDict []) "GET" url_suffix params "json" ;;
      outputs <- lift (py_get response "data") ;;
      human_results <- lift (parse_get_ip_object_list_results response) ;;
      if is_paging_required && truthy outputs then
        links <- lift (py_get response "links") ;;
        '(current_page_number, last_page_number) <-
          lift (add_paging_to_outputs links page_number) ;;
        ret (mk_list_locals human_results outputs
               (paging_outputs_dict current_page_number last_page_number page_size)
               (paging_data_to_human_readable
                  current_page_number last_page_number page_size)
               is_paging_required)
      else
        ret (mk_list_locals human_results outputs (PList []) "" is_paging_required)
  | _ :: _ =>
      '(human_results, outputs) <-
        get_ip_objects_by_ids client object_ids list_type params ;;
      ret (mk_list_locals human_results (PList outputs) (PList []) ""
             is_paging_required)
  end.

(** The rest of [get_ip_objects_list_command]: the table, the paging
    lines, the override when nothing was found, the results. *)
Definition list_render (l : list_locals) : CommandResults :=
  let human_readable :=
    tableToMarkdown "F5 Silverline IP Objects" (human_results l)
                    TABLE_HEADERS_GET_OBJECTS true in
  let human_readable := human_readable ++ paging_data_human_readable l in
  let human_readable :=
    if match human_results l with [] => true | _ => false end
       && is_paging_required l
    then NO_RESULTS_MESSAGE
    else human_readable in
  mk_CommandResults human_readable (Some "F5Silverline") (Some "id")
    (Some (PDict [("IPObjectList", list_outputs l);
                  ("Paging", paging_data l)])).

Definition get_ip_objects_list_command (client : Client) (args : dict)
  : M CommandResults :=
  l <- list_fetch client args ;;
  ret (list_render l).

(** *** The requests of the list command *)

(** The request sent for the whole collection. *)
Definition list_request (client : Client) (list_type params : pyval) : request :=
  mk_request "GET" (PDict []) (py_str list_type ++ "/ip_objects")
             params (_headers client) "json".

(** The request [get_ip_objects_by_ids] sends for one id. *)
Definition id_request (client : Client) (list_type params object_id : pyval)
  : request :=
  mk_request "GET" (PDict []) (py_str list_type ++ "/ip_objects/" ++ py_str object_id)
             params (_headers client) "json".

(** [answers s requests responses s']: sent one after the other to
    the service in state [s], the requests are answered by these
    responses, none with an error, and leave the service in [s']. *)
Inductive answers : remote -> list request -> list pyval -> remote -> Prop :=
| answers_nil (s : remote) : answers s [] [] s
| answers_cons (s s1 s2 : remote) (r : request) (res : pyval)
               (rs : list request) (ress : list pyval) :
    _http_request s r = (Ok res, s1) ->
    answers s1 rs ress s2 ->
    answers s (r :: rs) (res :: ress) s2.

(** What one response contributes to the results of
    [get_ip_objects_by_ids]: its [data] and its first parsed entry. *)
Definition data_of (res data : pyval) : Prop :=
  py_get res "data" = Ok data.

Definition first_entry_of (res entry : pyval) : Prop :=
  exists rest, parse_get_ip_object_list_results res = Ok (entry :: rest).

(** [not v], for the elements the parsing loop skips. *)
Definition falsy (v : pyval) : bool := negb (truthy v).

(** *** The entry point *)

(** [urljoin] of CommonServerPython: the joined address, or the
    exception it raises (on a [url] that is missing or not text). *)
Variable urljoin : pyval -> string -> result string.

(** Python's [str()] on an exception. *)
Variable exn_str : exn -> string.

(** The text [main] gives to [return_error]. *)
Definition failure_message (command detail : string) : string :=
  "Failed to execute " ++ command ++ " command." ++ nl ++ "Error:" ++ nl ++ detail.

(** The [if]/[elif] chain of [main], for the four commands it knows. *)
Definition dispatch (client : Client) (command : string) (args : dict)
  : option (M command_output) :=
  if String.eqb command "test-module" then
    Some (message <- test_module client ;; ret (TextOutput message))
  else if String.eqb command "f5-silverline-ip-objects-list" then
    Some (results <- get_ip_objects_list_command client args ;;
          ret (ResultsOutput results))
  else if String.eqb command "f5-silverline-ip-object-add" then
    Some (results <- add_ip_objects_command client args ;;
          ret (ResultsOutput results))
  else if String.eqb command "f5-silverline-ip-object-delete" then
    Some (results <- delete_ip_objects_command client args ;;
          ret (ResultsOutput results))
  else None.

(** The client [main] builds from the parameters, the token and the
    base address.  The client keeps the truth value of [proxy]. *)
Definition build_client (params : dict) (access_token : pyval)
  (base_url : string) : Client :=
  let verify_certificate :=
    negb (truthy (dict_get params "insecure" (PBool false))) in
  let proxy := dict_get params "proxy" (PBool false) in
  let headers :=
    PDict [("X-Authorization-Token", access_token);
           ("Content-Type", PStr "application/json")] in
  mk_Client base_url verify_certificate headers (truthy proxy).

(** [main], with [demisto.params()], [demisto.command()] and
    [demisto.args()] as its arguments.  The token is read and the base
    address joined before the [try]: an exception of either leaves
    [main] as it is.  Inside the [try] every exception ends in
    [return_error], the [NotImplementedError] of the last branch
    included, whose text is its message. *)
Definition main (params : dict) (command : string) (args : dict) : M outcome :=
  fun w =>
    match py_get (dict_get params "token" PNone) "password" with
    | Raise e => (Raise e, w)
    | Ok access_token =>
        match urljoin (dict_get params "url" PNone) BASE_URL with
        | Raise e => (Raise e, w)
        | Ok base_url =>
            let client := build_client params access_token base_url in
            match dispatch client command args with
            | Some handler =>
                match handler w with
                | (Ok output, w') => (Ok (Returned output), w')
                | (Raise e, w') =>
                    (Ok (Failed (failure_message command (exn_str e))), w')
                end
            | None =>
                (Ok (Failed (failure_message command
                               (command ++
                                " is not an existing F5 Silverline command"))),
                 w)
            end
        end
    end.

(** What [main] makes of the run of a handler: the result goes to
    [return_results], an exception to [return_error]. *)
Definition report (command : string) {A : Type} (wrap : A -> command_output)
  (run : result A * world) : result outcome * world :=
  match run with
  | (Ok a, w') => (Ok (Returned (wrap a)), w')
  | (Raise e, w') => (Ok (Failed (failure_message command (exn_str e))), w')
  end.

(** The HTTP method each command of [main] works with. *)
Definition command_method (command : string) : string :=
  if String.eqb command "f5-silverline-ip-object-add" then "POST"
  else if String.eqb command "f5-silverline-ip-object-delete" then "DELETE"
  else "GET".

Definition known_command (command : string) : bool :=
  String.eqb command "test-module"
  || String.eqb command "f5-silverline-ip-objects-list"
  || String.eqb command "f5-silverline-ip-object-add"
  || String.eqb command "f5-silverline-ip-object-delete".

(** The requests the read-only handlers send. *)
Definition is_get_of (client : Client) (q : request) : Prop :=
  req_method q = "GET"
  /\ req_json_data q = PDict []
  /\ req_headers q = _headers client
  /\ req_resp_type q = "json".

(** * Properties *)

(** ** Text *)



Lemma strip_prefix_app (p s : string) : strip_prefix p (p ++ s) = Some s.
Proof.
  induction p as [|a p IH]; simpl; [reflexivity |].
  now rewrite Ascii.eqb_refl.
Qed.

Lemma strip_prefix_Some (p s r : string) :
  strip_prefix p s = Some r -> s = p ++ r.
Proof.
  revert s; induction p as [|a p IH]; intros s H; simpl in *.
  - now inversion H.
  - destruct s as [|b s]; [discriminate |].
    destruct (Ascii.eqb a b) eqn:E; [| discriminate].
    apply Ascii.eqb_eq in E; subst b.
    now rewrite (IH _ H).
Qed.

Lemma prefix_strip_prefix (p s : string) :
  String.prefix p s = true <-> exists r, strip_prefix p s = Some r.
Proof.
  revert s; induction p as [|a p IH]; intros s; simpl.
  - destruct s; simpl; split; eauto.
  - destruct s as [|b s]; simpl.
    + split; [discriminate | intros [r H]; discriminate].
    + destruct (ascii_dec a b) as [->|N].
      * rewrite Ascii.eqb_refl. apply IH.
      * apply Ascii.eqb_neq in N. rewrite N.
        split; [discriminate | intros [r H]; discriminate].
Qed.


Lemma prefix_occurs (k s : string) :
  String.prefix k s = true <-> exists b, s = k ++ b.
Proof.
  rewrite prefix_strip_prefix. split; intros [b H]; exists b.
  - now apply strip_prefix_Some.
  - rewrite H. apply strip_prefix_app.
Qed.

Lemma contains_occurs (k s : string) :
  contains k s = true <-> exists a b, s = a ++ k ++ b.
Proof.
  induction s as [|c s IH]; cbn [contains].
  - rewrite orb_false_r, prefix_occurs. split.
    + intros [b H]. now exists "", b.
    + intros [a [b H]]. destruct a; simpl in H; [now exists b | discriminate].
  - rewrite orb_true_iff, IH, prefix_occurs. split.
    + intros [[b H] | [a [b H]]].
      * now exists "", b.
      * exists (String c a), b. simpl. now rewrite H.
    + intros [a [b H]]. destruct a as [|x a]; simpl in H.
      * left. now exists b.
      * right. inversion H. now exists a, b.
Qed.

Lemma has_char_append (c : ascii) (a b : string) :
  has_char c (a ++ b) = has_char c a || has_char c b.
Proof.
  induction a as [|x a IH]; simpl; [reflexivity |].
  now rewrite IH, orb_assoc.
Qed.

(** ** The pattern *)


Lemma lazy_until_amp_Some (s v : string) :
  lazy_until_amp s = Some v ->
  exists post, s = v ++ String "&" post /\ page_value v = true.
Proof.
  revert v; induction s as [|c s IH]; simpl; intros v H; [discriminate |].
  destruct (Ascii.eqb c "&") eqn:Ea.
  - apply Ascii.eqb_eq in Ea; subst c. inversion H; subst v.
    exists s. split; reflexivity.
  - destruct (Ascii.eqb c newline) eqn:En; [discriminate |].
    destruct (lazy_until_amp s) as [v'|] eqn:Es; [| discriminate].
    inversion H; subst v. destruct (IH v' eq_refl) as [post [-> Hv]].
    exists post. split; [reflexivity |].
    unfold page_value in *; simpl. rewrite Ea, En. exact Hv.
Qed.

Lemma lazy_until_amp_no_amp (s : string) :
  has_char "&" s = false -> lazy_until_amp s = None.
Proof.
  induction s as [|c s IH]; simpl; intros H; [reflexivity |].
  apply orb_false_iff in H as [Hc Hs]. rewrite Hc.
  destruct (Ascii.eqb c newline); [reflexivity |].
  now rewrite (IH Hs).
Qed.

(** A match comes from an occurrence of the lookbehind text followed
    by the matched text and [&]. *)
Lemma re_search_Some (s g : string) :
  re_search_PAGE_NUMBER_PATTERN s = Some g ->
  exists pre post,
    s = pre ++ PAGE_NUMBER_LOOKBEHIND ++ g ++ String "&" post
    /\ page_value g = true.
Proof.
  induction s as [|c s IH]; intros H; [discriminate |].
  cbn [re_search_PAGE_NUMBER_PATTERN] in H.
  assert (Hrec : re_search_PAGE_NUMBER_PATTERN s = Some g ->
                 exists pre post,
                   String c s = pre ++ PAGE_NUMBER_LOOKBEHIND ++ g ++ String "&" post
                   /\ page_value g = true).
  { intros H'. destruct (IH H') as [pre [post [-> Hg]]].
    exists (String c pre), post. split; [reflexivity | exact Hg]. }
  destruct (strip_prefix PAGE_NUMBER_LOOKBEHIND (String c s)) as [rest|] eqn:Ep;
    [| exact (Hrec H)].
  destruct (lazy_until_amp rest) as [g'|] eqn:El; [| exact (Hrec H)].
  inversion H; subst g'.
  apply strip_prefix_Some in Ep.
  apply lazy_until_amp_Some in El as [post [-> Hg]].
  exists "", post. split; [exact Ep | exact Hg].
Qed.

Lemma amp_after_false (k s : string) :
  amp_after k s = false <->
  (forall pre rest, s = pre ++ k ++ rest -> has_char "&" rest = false).
Proof.
  split.
  - intros H pre. revert s H. induction pre as [|c pre IH]; intros s H rest ->.
    + destruct (k ++ rest) eqn:E; cbn [amp_after] in H;
        apply orb_false_iff in H as [H _];
        rewrite <- E, strip_prefix_app in H; exact H.
    + cbn [append amp_after] in H. apply orb_false_iff in H as [_ H].
      now apply (IH _ H rest).
  - induction s as [|c s IH]; intros H; cbn [amp_after].
    + rewrite orb_false_r.
      destruct (strip_prefix k "") as [rest|] eqn:E; [| reflexivity].
      apply strip_prefix_Some in E. now apply (H "" rest).
    + apply orb_false_iff. split.
      * destruct (strip_prefix k (String c s)) as [rest|] eqn:E; [| reflexivity].
        apply strip_prefix_Some in E. now apply (H "" rest).
      * apply IH. intros pre rest ->. now apply (H (String c pre) rest).
Qed.

(** No occurrence of the lookbehind text is followed by [&]: no
    match. *)
Lemma re_search_None (s : string) :
  amp_after PAGE_NUMBER_LOOKBEHIND s = false ->
  re_search_PAGE_NUMBER_PATTERN s = None.
Proof.
  intros H. destruct (re_search_PAGE_NUMBER_PATTERN s) as [g|] eqn:E;
    [| reflexivity].
  apply re_search_Some in E as [pre [post [-> _]]].
  rewrite amp_after_false in H.
  specialize (H pre (g ++ String "&" post) eq_refl).
  rewrite has_char_append in H. simpl in H.
  now rewrite orb_true_r in H.
Qed.





(** ** Page numbers from the navigation links *)


(** C9.  A page number comes out of a link only through an
    occurrence of [page[number]=] that is followed by the value and
    then by [&].  A self or last link that has [page[number]=] but no
    [&] after any occurrence of it ([amp_after] is false, see
    [amp_after_false]) makes [add_paging_to_outputs] raise: [AttributeError] from [group] on the missing match (for
    the last link, unless the self link raised before). *)
Theorem add_paging_to_outputs_requires_amp
  (paging_dict : dict) (page_number : pyval) (link : string) :
  contains PAGE_NUMBER_LOOKBEHIND link = true ->
  amp_after PAGE_NUMBER_LOOKBEHIND link = false ->
  (dict_get paging_dict "self" PNone = PStr link ->
   add_paging_to_outputs (PDict paging_dict) page_number = Raise AttributeError)
  /\ (dict_get paging_dict "last" PNone = PStr link ->
      add_paging_to_outputs (PDict paging_dict) page_number = Raise AttributeError
      \/ add_paging_to_outputs (PDict paging_dict) page_number = Raise TypeError).
Proof.
  intros Hk Hamp.
  assert (Hne : truthy (PStr link) = true).
  { destruct link; [discriminate Hk | reflexivity]. }
  assert (Hnone : search_group0 (PStr link) = Raise AttributeError).
  { unfold search_group0. now rewrite (re_search_None _ Hamp). }
  unfold add_paging_to_outputs; cbn [py_get rbind]. split.
  - intros Hs. rewrite Hs, Hne, Hnone. reflexivity.
  - intros Hl. rewrite Hl, Hne, Hnone.
    destruct (truthy (dict_get paging_dict "self" PNone)).
    + destruct (dict_get paging_dict "self" PNone) as [| | |s| |];
        cbn [search_group0 rbind]; try (now right).
      destruct (re_search_PAGE_NUMBER_PATTERN s); cbn [rbind]; now left.
    + cbn [rbind]. now left.
Qed.

(** The converse reading of C9: a page number extracted from the
    self link sits between [page[number]=] and a later [&]. *)
Lemma add_paging_to_outputs_current_from_link
  (paging_dict : dict) (page_number c l : pyval) :
  truthy (dict_get paging_dict "self" PNone) = true ->
  add_paging_to_outputs (PDict paging_dict) page_number = Ok (c, l) ->
  exists pre g post,
    dict_get paging_dict "self" PNone
    = PStr (pre ++ PAGE_NUMBER_LOOKBEHIND ++ g ++ String "&" post)
    /\ c = PStr g.
Proof.
  unfold add_paging_to_outputs; cbn [py_get rbind]. intros Ht.
  rewrite Ht.
  destruct (dict_get paging_dict "self" PNone) as [| | |s| |];
    cbn [search_group0 rbind]; try discriminate.
  destruct (re_search_PAGE_NUMBER_PATTERN s) as [g|] eqn:E;
    cbn [rbind]; [| discriminate].
  apply re_search_Some in E as [pre [post [-> _]]].
  destruct (if truthy (dict_get paging_dict "last" PNone)
            then search_group0 (dict_get paging_dict "last" PNone)
            else Ok (PStr g)); cbn [rbind]; [| discriminate].
  intros H; inversion H; subst. now exists pre, g, post.
Qed.

(** ** Paging parameters *)

(** C2 (as amended).  When [int()] accepts both arguments the result
    is exactly the dict of [page[size]] and [page[number]] with the
    converted integers.  When [int()] rejects one of them with a
    [ValueError], as it does for a text that is not an integer
    literal, the function raises the validation error.  In the list
    command any error of [paging_args_to_params] ends the command with
    the state untouched: no request has been sent. *)
Theorem paging_args_to_params_spec (page_size page_number : pyval) :
  (forall size number,
      py_int page_size = Ok size ->
      py_int page_number = Ok number ->
      paging_args_to_params page_size page_number
      = Ok (PDict [("page[size]", PInt size); ("page[number]", PInt number)]))
  /\ (forall msg,
         py_int page_size = Raise (ValueError msg) ->
         paging_args_to_params page_size page_number
         = Raise (ValueError "page_number and page_size should be numbers"))
  /\ (forall size msg,
         py_int page_size = Ok size ->
         py_int page_number = Raise (ValueError msg) ->
         paging_args_to_params page_size page_number
         = Raise (ValueError "page_number and page_size should be numbers"))
  /\ (forall client args list_type e w,
         dict_item args "list_type" = Ok list_type ->
         dict_get args "page_size" PNone = page_size ->
         dict_get args "page_number" PNone = page_number ->
         truthy page_size = true ->
         truthy page_number = true ->
         paging_args_to_params page_size page_number = Raise e ->
         get_ip_objects_list_command client args w = (Raise e, w)).
Proof.
  repeat split.
  - intros size number Hs Hn. unfold paging_args_to_params.
    now rewrite Hs, Hn.
  - intros msg Hs. unfold paging_args_to_params. now rewrite Hs.
  - intros size msg Hs Hn. unfold paging_args_to_params.
    now rewrite Hs, Hn.
  - intros client args list_type e w Hlt Hps Hpn Ts Tn He.
    unfold get_ip_objects_list_command, list_fetch, bind, lift.
    rewrite Hlt, Hps, Hpn. unfold handle_paging.
    now rewrite Ts, Tn, He.
Qed.

Lemma handle_paging_not_required (page_number page_size : pyval) :
  truthy page_number = false \/ truthy page_size = false ->
  handle_paging page_number page_size = Ok (false, PDict []).
Proof.
  unfold handle_paging. intros [H | H]; rewrite H; [reflexivity |].
  now rewrite andb_false_r.
Qed.

Lemma handle_paging_required (page_number page_size : pyval)
  (required : bool) (params : pyval) :
  handle_paging page_number page_size = Ok (required, params) ->
  required = truthy page_number && truthy page_size.
Proof.
  unfold handle_paging.
  destruct (truthy page_number && truthy page_size).
  - destruct (paging_args_to_params page_size page_number); cbn [rbind];
      [| discriminate].
    now intros H; inversion H.
  - now intros H; inversion H.
Qed.

(** ** Parsing *)

(** C4.  A response whose [data] is the mapping [m] and a response
    whose [data] is the list [[m]] parse to the same result. *)
Theorem parse_single_mapping_as_list (m : dict) (results results' : pyval) :
  py_get results "data" = Ok (PDict m) ->
  py_get results' "data" = Ok (PList [PDict m]) ->
  parse_get_ip_object_list_results results
  = parse_get_ip_object_list_results results'.
Proof.
  intros H H'. unfold parse_get_ip_object_list_results.
  rewrite H, H'. reflexivity.
Qed.

(** ** The monad *)

Lemma bind_Ok {A B : Type} (m : M A) (k : A -> M B) (w w' : world) (a : A) :
  m w = (Ok a, w') -> bind m k w = k a w'.
Proof. unfold bind. now intros ->. Qed.

Lemma bind_Raise {A B : Type} (m : M A) (k : A -> M B) (w w' : world) (e : exn) :
  m w = (Raise e, w') -> bind m k w = (Raise e, w').
Proof. unfold bind. now intros ->. Qed.

Lemma request_ip_objects_run (client : Client) (body : pyval)
  (method url_suffix : string) (params : pyval) (resp_type : string)
  (w : world) (res : result pyval) (s' : remote) :
  _http_request (service w)
    (mk_request method body url_suffix params (_headers client) resp_type)
  = (res, s') ->
  request_ip_objects client body method url_suffix params resp_type w
  = (res, mk_world s'
            (sent w ++ [mk_request method body url_suffix params
                                   (_headers client) resp_type])%list).
Proof. unfold request_ip_objects. now intros ->. Qed.

(** ** Fetching by id *)

(** One turn of the loop, by the answer of the service. *)
Lemma by_ids_loop_step (client : Client) (object_id : pyval)
  (object_ids : list pyval) (list_type params : pyval)
  (human_results outputs : list pyval) (w : world) :
  by_ids_loop client (object_id :: object_ids) list_type params
              human_results outputs w
  = let r := id_request client list_type params object_id in
    let w1 := mk_world (snd (_http_request (service w) r)) (sent w ++ [r])%list in
    match fst (_http_request (service w) r) with
    | Raise e => (Raise e, w1)
    | Ok res =>
        match py_get res "data" with
        | Raise e => (Raise e, w1)
        | Ok data =>
            match parse_get_ip_object_list_results res with
            | Raise e => (Raise e, w1)
            | Ok [] => (Raise IndexError, w1)
            | Ok (first :: _) =>
                by_ids_loop client object_ids list_type params
                            (human_results ++ [first])%list
                            (outputs ++ [data])%list w1
            end
        end
    end.
Proof.
  cbn [by_ids_loop]. fold (id_request client list_type params object_id).
  unfold bind at 1. unfold request_ip_objects, id_request.
  destruct (_http_request (service w) _) as [[res|e] s1]; cbn [fst snd];
    [| reflexivity].
  unfold bind at 1. unfold lift at 1.
  destruct (py_get res "data") as [data|e]; [| reflexivity].
  unfold bind at 1. unfold lift at 1.
  destruct (parse_get_ip_object_list_results res) as [[|first parsed]|e];
    reflexivity.
Qed.

Lemma by_ids_loop_spec (client : Client) (list_type params : pyval)
  (object_ids : list pyval) :
  forall (human_results outputs : list pyval) (w : world)
         (r : result (list pyval * list pyval)) (w' : world),
    by_ids_loop client object_ids list_type params human_results outputs w
    = (r, w') ->
    match r with
    | Ok (human_results', outputs') =>
        sent w' = (sent w ++ map (id_request client list_type params) object_ids)%list
        /\ exists responses entries datas,
            answers (service w)
                    (map (id_request client list_type params) object_ids)
                    responses (service w')
            /\ Forall2 first_entry_of responses entries
            /\ Forall2 data_of responses datas
            /\ human_results' = (human_results ++ entries)%list
            /\ outputs' = (outputs ++ datas)%list
    | Raise e =>
        exists done object_id rest,
          object_ids = (done ++ object_id :: rest)%list
          /\ sent w' = (sent w ++ map (id_request client list_type params)
                                      (done ++ [object_id]))%list
    end.
Proof.
  induction object_ids as [|object_id object_ids IH];
    intros human_results outputs w r w' H.
  - cbn in H. inversion H; subst. split.
    + now rewrite app_nil_r.
    + exists [], [], []. rewrite !app_nil_r.
      repeat split; constructor.
  - rewrite by_ids_loop_step in H. cbv zeta in H.
    set (q := id_request client list_type params object_id) in *.
    destruct (_http_request (service w) q) as [[res|e] s1] eqn:Eq;
      cbn [fst snd] in H.
    2:{ inversion H; subst. exists [], object_id, object_ids.
        split; reflexivity. }
    destruct (py_get res "data") as [data|e] eqn:Ed.
    2:{ inversion H; subst. exists [], object_id, object_ids.
        split; reflexivity. }
    destruct (parse_get_ip_object_list_results res) as [[|first parsed]|e] eqn:Ep.
    1,3: inversion H; subst; exists [], object_id, object_ids;
         split; reflexivity.
    apply IH in H. destruct r as [[human_results' outputs']|e].
    + destruct H as [Hs [responses [entries [datas [Ha [Hf [Hd [Hh Ho]]]]]]]].
      cbn [sent service] in *. split.
      * rewrite Hs, <- app_assoc. reflexivity.
      * exists (res :: responses), (first :: entries), (data :: datas).
        repeat split.
        -- cbn [map]. fold q. econstructor; eassumption.
        -- constructor; [now exists parsed | assumption].
        -- constructor; assumption.
        -- rewrite Hh, <- app_assoc. reflexivity.
        -- rewrite Ho, <- app_assoc. reflexivity.
    + destruct H as [done [oid [rest [-> Hs]]]].
      exists (object_id :: done), oid, rest. split; [reflexivity |].
      cbn [sent] in Hs. rewrite Hs, <- app_assoc. reflexivity.
Qed.



Lemma Forall2_length_eq {A B : Type} (R : A -> B -> Prop) (l : list A) (l' : list B) :
  Forall2 R l l' -> List.length l = List.length l'.
Proof.
  induction 1; simpl; congruence.
Qed.

Lemma answers_length (s s' : remote) (rs : list request) (ress : list pyval) :
  answers s rs ress s' -> List.length ress = List.length rs.
Proof.
  induction 1; simpl; congruence.
Qed.

(** A successful fetch by id returns one entry per id. *)
Lemma get_ip_objects_by_ids_length (client : Client) (object_ids : list pyval)
  (list_type params : pyval) (w w' : world) (human_results outputs : list pyval) :
  get_ip_objects_by_ids client object_ids list_type params w
  = (Ok (human_results, outputs), w') ->
  List.length human_results = List.length object_ids.
Proof.
  intros H. apply by_ids_loop_spec in H.
  destruct H as [_ [responses [entries [datas [Ha [Hf [_ [-> _]]]]]]]].
  cbn [app]. apply Forall2_length_eq in Hf. apply answers_length in Ha.
  rewrite length_map in Ha. congruence.
Qed.

(** The list command when object ids are given. *)
Lemma list_command_by_ids (client : Client) (args : dict)
  (list_type : pyval) (object_id : pyval) (object_ids : list pyval)
  (required : bool) (params : pyval) (w : world) :
  dict_item args "list_type" = Ok list_type ->
  argToList (dict_get args "object_id" PNone) = object_id :: object_ids ->
  handle_paging (dict_get args "page_number" PNone)
                (dict_get args "page_size" PNone) = Ok (required, params) ->
  get_ip_objects_list_command client args w
  = match get_ip_objects_by_ids client (object_id :: object_ids)
                                list_type params w with
    | (Ok (human_results, outputs), w') =>
        (Ok (list_render
               (mk_list_locals human_results (PList outputs) (PList []) ""
                               required)), w')
    | (Raise e, w') => (Raise e, w')
    end.
Proof.
  intros Hlt Hids Hp.
  unfold get_ip_objects_list_command, list_fetch.
  unfold bind at 1. unfold bind at 1. unfold lift at 1.
  rewrite Hlt, Hids. unfold bind at 1. unfold lift at 1. rewrite Hp.
  unfold bind at 1.
  destruct (get_ip_objects_by_ids client (object_id :: object_ids)
                                  list_type params w)
    as [[[human_results outputs]|e] w']; reflexivity.
Qed.



(** ** The list command *)

(** The list command when no object id is given. *)
Lemma list_fetch_collection (client : Client) (args : dict)
  (list_type : pyval) (required : bool) (params : pyval) (w : world) :
  dict_item args "list_type" = Ok list_type ->
  argToList (dict_get args "object_id" PNone) = [] ->
  handle_paging (dict_get args "page_number" PNone)
                (dict_get args "page_size" PNone) = Ok (required, params) ->
  list_fetch client args w
  = let q := list_request client list_type params in
    let w1 := mk_world (snd (_http_request (service w) q)) (sent w ++ [q])%list in
    match fst (_http_request (service w) q) with
    | Raise e => (Raise e, w1)
    | Ok response =>
        match py_get response "data" with
        | Raise e => (Raise e, w1)
        | Ok outputs =>
            match parse_get_ip_object_list_results response with
            | Raise e => (Raise e, w1)
            | Ok human_results =>
                if required && truthy outputs then
                  match (links <-- py_get response "links" ;;
                         add_paging_to_outputs
                           links (dict_get args "page_number" PNone)) with
                  | Raise e => (Raise e, w1)
                  | Ok (current_page_number, last_page_number) =>
                      (Ok (mk_list_locals human_results outputs
                             (paging_outputs_dict
                                current_page_number last_page_number
                                (dict_get args "page_size" PNone))
                             (paging_data_to_human_readable
                                current_page_number last_page_number
                                (dict_get args "page_size" PNone))
                             required), w1)
                  end
                else
                  (Ok (mk_list_locals human_results outputs (PList []) ""
                                      required), w1)
            end
        end
    end.
Proof.
  intros Hlt Hids Hp. unfold list_fetch.
  unfold bind at 1. unfold lift at 1. rewrite Hlt, Hids.
  unfold bind at 1. unfold lift at 1. rewrite Hp.
  cbv zeta. fold (list_request client list_type params).
  unfold bind at 1. unfold request_ip_objects, list_request.
  destruct (_http_request (service w) _) as [[response|e] s1]; cbn [fst snd];
    [| reflexivity].
  unfold bind at 1. unfold lift at 1.
  destruct (py_get response "data") as [outputs|e]; [| reflexivity].
  unfold bind at 1. unfold lift at 1.
  destruct (parse_get_ip_object_list_results response) as [human_results|e];
    [| reflexivity].
  destruct (required && truthy outputs); [| reflexivity].
  unfold bind at 1. unfold lift at 1.
  destruct (py_get response "links") as [links|e]; cbn [rbind]; [| reflexivity].
  unfold bind at 1. unfold lift at 1.
  destruct (add_paging_to_outputs links (dict_get args "page_number" PNone))
    as [[current_page_number last_page_number]|e]; reflexivity.
Qed.

(** The requests a list command sends carry the parameters that
    [handle_paging] returned. *)
Lemma list_fetch_sent (client : Client) (args : dict) (w w' : world)
  (r : result list_locals) (required : bool) (params : pyval) :
  handle_paging (dict_get args "page_number" PNone)
                (dict_get args "page_size" PNone) = Ok (required, params) ->
  list_fetch client args w = (r, w') ->
  exists requests,
    sent w' = (sent w ++ requests)%list
    /\ Forall (fun q => req_params q = params) requests.
Proof.
  intros Hp H.
  destruct (dict_item args "list_type") as [list_type|e] eqn:Hlt.
  2:{ unfold list_fetch in H. unfold bind at 1 in H. unfold lift at 1 in H.
      rewrite Hlt in H. inversion H; subst. exists [].
      now rewrite app_nil_r. }
  destruct (argToList (dict_get args "object_id" PNone))
    as [|object_id object_ids] eqn:Hids.
  - rewrite (list_fetch_collection _ _ _ _ _ _ Hlt Hids Hp) in H.
    cbv zeta in H.
    exists [list_request client list_type params].
    split; [| now repeat constructor].
    destruct (fst (_http_request (service w) (list_request client list_type params)))
      as [response|e]; [| now inversion H].
    destruct (py_get response "data") as [outputs|e]; [| now inversion H].
    destruct (parse_get_ip_object_list_results response) as [human_results|e];
      [| now inversion H].
    destruct (required && truthy outputs); [| now inversion H].
    destruct (links <-- py_get response "links" ;;
              add_paging_to_outputs links (dict_get args "page_number" PNone))
      as [[c l]|e]; now inversion H.
  - unfold list_fetch in H.
    unfold bind at 1 in H. unfold lift at 1 in H. rewrite Hlt, Hids in H.
    unfold bind at 1 in H. unfold lift at 1 in H. rewrite Hp in H.
    unfold bind at 1 in H.
    destruct (get_ip_objects_by_ids client (object_id :: object_ids)
                                    list_type params w)
      as [rr w1] eqn:E.
    unfold get_ip_objects_by_ids in E. apply by_ids_loop_spec in E.
    destruct rr as [[human_results outputs]|e].
    + inversion H; subst. destruct E as [Hs _].
      eexists; split; [exact Hs |].
      apply Forall_forall. intros q Hq. apply in_map_iff in Hq.
      now destruct Hq as [oid [<- _]].
    + inversion H; subst. destruct E as [done [oid [rest [_ Hs]]]].
      eexists; split; [exact Hs |].
      apply Forall_forall. intros q Hq. apply in_map_iff in Hq.
      now destruct Hq as [oid' [<- _]].
Qed.

Lemma list_command_world (client : Client) (args : dict) (w w' : world)
  (r : result CommandResults) :
  get_ip_objects_list_command client args w = (r, w') ->
  exists r', list_fetch client args w = (r', w').
Proof.
  unfold get_ip_objects_list_command, bind.
  destruct (list_fetch client args w) as [[l|e] w1]; cbn;
    intros H; inversion H; subst; eauto.
Qed.

(** C8.  When page_number or page_size is missing (or otherwise
    falsy) [handle_paging] answers that paging is not required, with
    the empty dict of parameters and without raising, and every
    request the list command sends carries the empty dict as its
    query parameters. *)
Theorem handle_paging_one_argument (page_number page_size : pyval) :
  truthy page_number = false \/ truthy page_size = false ->
  handle_paging page_number page_size = Ok (false, PDict [])
  /\ (forall client args w r w',
         dict_get args "page_number" PNone = page_number ->
         dict_get args "page_size" PNone = page_size ->
         get_ip_objects_list_command client args w = (r, w') ->
         exists requests,
           sent w' = (sent w ++ requests)%list
           /\ Forall (fun q => req_params q = PDict []) requests).
Proof.
  intros H. pose proof (handle_paging_not_required _ _ H) as Hp.
  split; [exact Hp |].
  intros client args w r w' Hn Hs Hc. subst.
  apply list_command_world in Hc as [r' Hf].
  exact (list_fetch_sent _ _ _ _ _ _ _ Hp Hf).
Qed.

Lemma list_fetch_required (client : Client) (args : dict)
  (w w' : world) (l : list_locals) :
  list_fetch client args w = (Ok l, w') ->
  is_paging_required l
  = truthy (dict_get args "page_number" PNone)
    && truthy (dict_get args "page_size" PNone).
Proof.
  intros Hf.
  unfold list_fetch in Hf. unfold bind at 1 in Hf. unfold lift at 1 in Hf.
  destruct (dict_item args "list_type") as [list_type|e]; [| discriminate].
  unfold bind at 1 in Hf. unfold lift at 1 in Hf.
  destruct (handle_paging (dict_get args "page_number" PNone)
                          (dict_get args "page_size" PNone))
    as [[required params]|e] eqn:Hp; [| discriminate].
  apply handle_paging_required in Hp. rewrite <- Hp.
  destruct (argToList (dict_get args "object_id" PNone)).
  - unfold bind at 1 in Hf.
    destruct (request_ip_objects _ _ _ _ _ _ w) as [[response|e] w1];
      [| discriminate].
    unfold bind at 1 in Hf. unfold lift at 1 in Hf.
    destruct (py_get response "data") as [outputs|e]; [| discriminate].
    unfold bind at 1 in Hf. unfold lift at 1 in Hf.
    destruct (parse_get_ip_object_list_results response); [| discriminate].
    destruct (required && truthy outputs).
    + unfold bind at 1 in Hf. unfold lift at 1 in Hf.
      destruct (py_get response "links") as [links|e]; [| discriminate].
      unfold bind at 1 in Hf. unfold lift at 1 in Hf.
      destruct (add_paging_to_outputs links _) as [[c n]|e];
        [| discriminate].
      now inversion Hf.
    + now inversion Hf.
  - unfold bind at 1 in Hf.
    destruct (get_ip_objects_by_ids _ _ _ _ w) as [[[hr outs]|e] w1];
      [| discriminate].
    now inversion Hf.
Qed.

(** C6 (as amended).  Let page_number and page_size both be given
    (truthy), so that paging is required.  Whenever the fetch comes
    to its end with no parsed entry, the command returns the guidance
    text as its
    human-readable output, whatever the table and the paging lines
    would have been.  In particular it does so when no object id is
    given and the service answers with a response whose [data] is
    empty and parses to no entry. *)
Theorem list_command_no_results (client : Client) (args : dict) (w : world) :
  truthy (dict_get args "page_number" PNone) = true ->
  truthy (dict_get args "page_size" PNone) = true ->
  (forall l w',
      list_fetch client args w = (Ok l, w') ->
      human_results l = [] ->
      exists results,
        get_ip_objects_list_command client args w = (Ok results, w')
        /\ readable_output results = NO_RESULTS_MESSAGE)
  /\ (forall list_type required params response s1 outputs,
         dict_item args "list_type" = Ok list_type ->
         argToList (dict_get args "object_id" PNone) = [] ->
         handle_paging (dict_get args "page_number" PNone)
                       (dict_get args "page_size" PNone)
         = Ok (required, params) ->
         _http_request (service w) (list_request client list_type params)
         = (Ok response, s1) ->
         py_get response "data" = Ok outputs ->
         truthy outputs = false ->
         parse_get_ip_object_list_results response = Ok [] ->
         exists results,
           get_ip_objects_list_command client args w
           = (Ok results,
              mk_world s1 (sent w ++ [list_request client list_type params])%list)
           /\ readable_output results = NO_RESULTS_MESSAGE).
Proof.
  intros Tn Ts.
  assert (A : forall l w',
             list_fetch client args w = (Ok l, w') ->
             human_results l = [] ->
             exists results,
               get_ip_objects_list_command client args w = (Ok results, w')
               /\ readable_output results = NO_RESULTS_MESSAGE).
  { intros l w' Hf Hh.
    pose proof (list_fetch_required _ _ _ _ _ Hf) as Hr.
    rewrite Tn, Ts in Hr. cbn in Hr.
    exists (list_render l). split.
    - unfold get_ip_objects_list_command, bind. now rewrite Hf.
    - unfold list_render. cbn [readable_output]. now rewrite Hh, Hr. }
  split; [exact A |].
  intros list_type required params response s1 outputs
         Hlt Hids Hp Hq Hd Ho Hparse.
  apply (A (mk_list_locals [] outputs (PList []) "" required)); [| reflexivity].
  rewrite (list_fetch_collection _ _ _ _ _ _ Hlt Hids Hp). cbv zeta.
  rewrite Hq. cbn [fst snd]. rewrite Hd, Hparse, Ho.
  now rewrite andb_false_r.
Qed.

(** ** The add command *)

(** C7.  With the optional arguments absent, the add command sends
    one POST to [<list_type>/ip_objects] whose body has
    [list_target] "proxy-routed" and, under [data], the attributes
    mask "32", the given ip and duration 0, and the meta note "" and
    tags [[]]; then it returns its confirmation message.
    [argToList] is assumed to turn the empty default of [tags] into
    the empty list. *)
Theorem add_ip_objects_command_defaults (client : Client) (args : dict)
  (list_type ip_address : pyval) (w : world) :
  argToList (PList []) = [] ->
  dict_item args "list_type" = Ok list_type ->
  dict_item args "IP" = Ok ip_address ->
  assoc "list_target" args = None ->
  assoc "mask" args = None ->
  assoc "duration" args = None ->
  assoc "note" args = None ->
  assoc "tags" args = None ->
  let body :=
    PDict [("list_target", PStr "proxy-routed");
           ("data",
            PDict [("id", PStr "");
                   ("type", PStr "ip_objects");
                   ("attributes",
                    PDict [("mask", PStr "32");
                           ("ip", ip_address);
                           ("duration", PInt 0)]);
                   ("meta",
                    PDict [("note", PStr "");
                           ("tags", PList [])])])] in
  let q := mk_request "POST" body (py_str list_type ++ "/ip_objects")
                      (PDict []) (_headers client) "content" in
  sent (snd (add_ip_objects_command client args w)) = (sent w ++ [q])%list
  /\ (forall res s',
         _http_request (service w) q = (Ok res, s') ->
         add_ip_objects_command client args w
         = (Ok (mk_CommandResults
                  ("IP object with IP address: " ++ py_str ip_address ++
                   " added successfully into the " ++ py_str list_type ++ " list.")
                  None None None),
            mk_world s' (sent w ++ [q])%list)).
Proof.
  intros Hl Hlt Hip Ht Hm Hd Hn Hg body q.
  assert (E : add_ip_objects_command client args w
              = match request_ip_objects client body "POST"
                        (py_str list_type ++ "/ip_objects") (PDict []) "content" w with
                | (Ok _, w') =>
                    (Ok (mk_CommandResults
                           ("IP object with IP address: " ++ py_str ip_address ++
                            " added successfully into the " ++ py_str list_type ++
                            " list.") None None None), w')
                | (Raise e, w') => (Raise e, w')
                end).
  { unfold add_ip_objects_command.
    unfold bind at 1. unfold lift at 1. rewrite Hlt.
    unfold bind at 1. unfold lift at 1. rewrite Hip.
    unfold dict_get. rewrite Ht, Hm, Hd, Hn, Hg, Hl.
    unfold bind at 1. unfold lift at 1. cbn [py_int].
    unfold bind at 1.
    change (define_body_for_add_ip_command
              (PStr "proxy-routed") (PStr "32") ip_address (PInt 0) (PStr "")
              (PList [])) with body.
    destruct (request_ip_objects client body "POST" _ _ _ w) as [[res|e] w'];
      reflexivity. }
  rewrite E. unfold request_ip_objects. fold q.
  destruct (_http_request (service w) q) as [[res|e] s1]; cbn [snd sent].
  - split; [reflexivity |]. intros res' s' H. now inversion H.
  - split; [reflexivity |]. intros res' s' H. discriminate.
Qed.

(** ** The connectivity check *)


(** ** Responses without an entry *)

Lemma parse_loop_falsy (elements parsed_results : list pyval) :
  forallb falsy elements = true ->
  parse_loop elements parsed_results = Ok parsed_results.
Proof.
  revert parsed_results.
  induction elements as [|ip_object elements IH]; intros parsed_results H.
  - reflexivity.
  - cbn [forallb] in H. apply andb_true_iff in H as [Hf Hrest].
    unfold falsy in Hf. apply negb_true_iff in Hf.
    cbn [parse_loop]. unfold parse_ip_object. rewrite Hf. cbn [rbind].
    rewrite app_nil_r. now apply IH.
Qed.

(** The loop after the ids that were answered and parsed. *)
Lemma by_ids_loop_app (client : Client) (list_type params : pyval)
  (done rest : list pyval) (responses : list pyval) :
  forall (entries datas human_results outputs : list pyval)
         (w : world) (s' : remote),
    answers (service w) (map (id_request client list_type params) done)
            responses s' ->
    Forall2 first_entry_of responses entries ->
    Forall2 data_of responses datas ->
    by_ids_loop client (done ++ rest)%list list_type params human_results outputs w
    = by_ids_loop client rest list_type params
        (human_results ++ entries)%list (outputs ++ datas)%list
        (mk_world s' (sent w ++ map (id_request client list_type params) done)%list).
Proof.
  revert responses.
  induction done as [|object_id done IH];
    intros responses entries datas human_results outputs w s' Ha Hf Hd.
  - inversion Ha; subst. inversion Hf; subst. inversion Hd; subst.
    cbn [app map]. rewrite !app_nil_r. now destruct w.
  - cbn [map] in Ha. inversion Ha as [|s0 s1 s2 r res rs ress Hq Hrest]; subst.
    inversion Hf as [|res0 entry ress0 entries' [tl He] Hf']; subst.
    inversion Hd as [|res0 data ress0 datas' Hdata Hd']; subst.
    cbn [app]. rewrite by_ids_loop_step. cbv zeta. rewrite Hq. cbn [fst snd].
    unfold data_of in Hdata. rewrite Hdata, He.
    rewrite (IH ress entries' datas' _ _ _ s'); cbn [service sent];
      try assumption.
    now rewrite <- !app_assoc.
Qed.

(** C10 (as amended).  When the lookup of an id is answered by a
    response that yields no parsed entry, [get_ip_objects_by_ids]
    raises after that lookup and returns nothing for the id: it
    raises [IndexError], from taking the first element of the empty
    parsed list, when [data] is a list with only falsy elements (the
    empty list among them) or the empty mapping, and it raises
    [TypeError], from iterating over [None], when [data] is absent or
    null. *)
Theorem get_ip_objects_by_ids_no_entry
  (client : Client) (done : list pyval) (object_id : pyval) (rest : list pyval)
  (list_type params : pyval) (w : world)
  (responses entries datas : list pyval) (s0 s1 : remote) (response : pyval) :
  answers (service w) (map (id_request client list_type params) done)
          responses s0 ->
  Forall2 first_entry_of responses entries ->
  Forall2 data_of responses datas ->
  _http_request s0 (id_request client list_type params object_id)
  = (Ok response, s1) ->
  let w1 := mk_world s1
              (sent w ++ map (id_request client list_type params)
                             (done ++ [object_id]))%list in
  (forall elements,
      py_get response "data" = Ok (PList elements) ->
      forallb falsy elements = true ->
      get_ip_objects_by_ids client (done ++ object_id :: rest)%list
                            list_type params w
      = (Raise IndexError, w1))
  /\ (py_get response "data" = Ok (PDict []) ->
      get_ip_objects_by_ids client (done ++ object_id :: rest)%list
                            list_type params w
      = (Raise IndexError, w1))
  /\ (py_get response "data" = Ok PNone ->
      get_ip_objects_by_ids client (done ++ object_id :: rest)%list
                            list_type params w
      = (Raise TypeError, w1)).
Proof.
  intros Ha Hf Hd Hq w1.
  assert (E : get_ip_objects_by_ids client (done ++ object_id :: rest)%list
                                    list_type params w
              = match py_get response "data" with
                | Raise e => (Raise e, w1)
                | Ok data =>
                    match parse_get_ip_object_list_results response with
                    | Raise e => (Raise e, w1)
                    | Ok [] => (Raise IndexError, w1)
                    | Ok (first :: _) =>
                        by_ids_loop client rest list_type params
                                    (entries ++ [first])%list
                                    (datas ++ [data])%list w1
                    end
                end).
  { unfold get_ip_objects_by_ids.
    rewrite (by_ids_loop_app _ _ _ _ _ _ _ _ [] [] _ _ Ha Hf Hd).
    rewrite by_ids_loop_step. cbv zeta. cbn [service sent app].
    rewrite Hq. cbn [fst snd]. unfold w1.
    now rewrite map_app, app_assoc. }
  rewrite E. unfold parse_get_ip_object_list_results. repeat split.
  - intros elements Hdata Hall. rewrite Hdata. cbn [rbind is_dict py_iter].
    now rewrite (parse_loop_falsy _ _ Hall).
  - intros Hdata. now rewrite Hdata.
  - intros Hdata. now rewrite Hdata.
Qed.

(** * Further properties *)

(** ** The parsing loop *)

Lemma py_get_error (v : pyval) (k : string) (e : exn) :
  py_get v k = Raise e -> e = AttributeError.
Proof.
  destruct v; cbn; intros H; inversion H; reflexivity.
Qed.

Lemma parse_ip_object_falsy (ip_object : pyval) :
  truthy ip_object = false -> parse_ip_object ip_object = Ok [].
Proof.
  unfold parse_ip_object. now intros ->.
Qed.

Lemma parse_ip_object_well_formed (ip_object : pyval) :
  truthy ip_object = true ->
  well_formed_ip_object ip_object = true ->
  parse_ip_object ip_object = Ok [ip_object_entry ip_object].
Proof.
  intros Ht Hw. unfold parse_ip_object. rewrite Ht.
  destruct ip_object as [| | | | |d]; try discriminate Hw.
  cbn [well_formed_ip_object] in Hw. apply andb_true_iff in Hw as [Ha Hm].
  cbn [py_get rbind ip_object_entry].
  destruct (dict_get d "attributes" PNone) as [| | | | |attributes];
    try discriminate Ha.
  destruct (dict_get d "meta" PNone) as [| | | | |meta]; try discriminate Hm.
  reflexivity.
Qed.

Lemma parse_ip_object_ill_formed (ip_object : pyval) :
  truthy ip_object = true ->
  well_formed_ip_object ip_object = false ->
  parse_ip_object ip_object = Raise AttributeError.
Proof.
  intros Ht Hw. unfold parse_ip_object. rewrite Ht.
  destruct ip_object as [| | | | |d]; try reflexivity.
  cbn [well_formed_ip_object] in Hw. cbn [py_get rbind].
  destruct (dict_get d "attributes" PNone) as [| | | | |attributes];
    try reflexivity.
  destruct (dict_get d "meta" PNone) as [| | | | |meta]; try reflexivity.
  discriminate Hw.
Qed.

Lemma parse_loop_filter (elements parsed_results : list pyval) :
  parse_loop elements parsed_results
  = parse_loop (filter truthy elements) parsed_results.
Proof.
  revert parsed_results.
  induction elements as [|ip_object elements IH]; intros parsed_results.
  - reflexivity.
  - cbn [filter]. destruct (truthy ip_object) eqn:Ht.
    + cbn [parse_loop]. destruct (parse_ip_object ip_object); cbn [rbind];
        [apply IH | reflexivity].
    + cbn [parse_loop]. rewrite (parse_ip_object_falsy _ Ht). cbn [rbind].
      rewrite app_nil_r. apply IH.
Qed.

Lemma parse_loop_well_formed (elements parsed_results : list pyval) :
  forallb (fun v => falsy v || well_formed_ip_object v) elements = true ->
  parse_loop elements parsed_results
  = Ok (parsed_results ++ map ip_object_entry (filter truthy elements))%list.
Proof.
  revert parsed_results.
  induction elements as [|ip_object elements IH]; intros parsed_results H.
  - cbn. now rewrite app_nil_r.
  - cbn [forallb] in H. apply andb_true_iff in H as [Hv Hrest].
    cbn [parse_loop filter]. unfold falsy in Hv.
    destruct (truthy ip_object) eqn:Ht; cbn [negb orb] in Hv.
    + rewrite (parse_ip_object_well_formed _ Ht Hv). cbn [rbind map].
      rewrite (IH _ Hrest), <- app_assoc. reflexivity.
    + rewrite (parse_ip_object_falsy _ Ht). cbn [rbind].
      rewrite app_nil_r. now apply IH.
Qed.

Lemma parse_loop_ill_formed (elements parsed_results : list pyval) :
  existsb (fun v => truthy v && negb (well_formed_ip_object v)) elements = true ->
  parse_loop elements parsed_results = Raise AttributeError.
Proof.
  revert parsed_results.
  induction elements as [|ip_object elements IH]; intros parsed_results H.
  - discriminate H.
  - cbn [existsb] in H. cbn [parse_loop].
    destruct (truthy ip_object) eqn:Ht.
    + destruct (well_formed_ip_object ip_object) eqn:Hw.
      * cbn [negb andb orb] in H.
        rewrite (parse_ip_object_well_formed _ Ht Hw). cbn [rbind].
        now apply IH.
      * now rewrite (parse_ip_object_ill_formed _ Ht Hw).
    + cbn [andb orb] in H. rewrite (parse_ip_object_falsy _ Ht). cbn [rbind].
      now apply IH.
Qed.

Lemma parse_loop_error (elements parsed_results : list pyval) (e : exn) :
  parse_loop elements parsed_results = Raise e -> e = AttributeError.
Proof.
  revert parsed_results.
  induction elements as [|ip_object elements IH]; intros parsed_results H.
  - discriminate H.
  - cbn [parse_loop] in H.
    destruct (truthy ip_object) eqn:Ht.
    + destruct (well_formed_ip_object ip_object) eqn:Hw.
      * rewrite (parse_ip_object_well_formed _ Ht Hw) in H. cbn [rbind] in H.
        now apply IH in H.
      * rewrite (parse_ip_object_ill_formed _ Ht Hw) in H.
        now inversion H.
    + rewrite (parse_ip_object_falsy _ Ht) in H. cbn [rbind] in H.
      now apply IH in H.
Qed.

Lemma ip_object_entry_keys (ip_object : pyval) :
  well_formed_ip_object ip_object = true ->
  keys_of (ip_object_entry ip_object) = TABLE_HEADERS_GET_OBJECTS.
Proof.
  destruct ip_object as [| | | | |d]; try discriminate.
  cbn [well_formed_ip_object ip_object_entry]. intros H.
  apply andb_true_iff in H as [Ha Hm].
  destruct (dict_get d "attributes" PNone); try discriminate Ha.
  destruct (dict_get d "meta" PNone); try discriminate Hm.
  reflexivity.
Qed.

(** X1.  The falsy elements of [data] do not count: a response parses
    like the response whose [data] has them removed, to the same
    entries or to the same error. *)
Theorem parse_drops_falsy_elements (results results' : pyval)
  (elements : list pyval) :
  py_get results "data" = Ok (PList elements) ->
  py_get results' "data" = Ok (PList (filter truthy elements)) ->
  parse_get_ip_object_list_results results
  = parse_get_ip_object_list_results results'.
Proof.
  intros H H'. unfold parse_get_ip_object_list_results.
  rewrite H, H'. cbn [rbind is_dict py_iter].
  apply parse_loop_filter.
Qed.

(** X2.  When every truthy element of [data] is a mapping whose
    [attributes] and [meta] are mappings, the response parses to one
    entry per truthy element, in the order of [data], each built from
    the fields of its element (a missing field reads as [None]); the
    keys of every entry are the headers of the table, in the same
    order. *)
Theorem parse_well_formed_data (results : pyval) (elements : list pyval) :
  py_get results "data" = Ok (PList elements) ->
  forallb (fun v => falsy v || well_formed_ip_object v) elements = true ->
  parse_get_ip_object_list_results results
  = Ok (map ip_object_entry (filter truthy elements))
  /\ Forall (fun entry => keys_of entry = TABLE_HEADERS_GET_OBJECTS)
            (map ip_object_entry (filter truthy elements)).
Proof.
  intros H Hall. split.
  - unfold parse_get_ip_object_list_results.
    rewrite H. cbn [rbind is_dict py_iter].
    now rewrite (parse_loop_well_formed _ _ Hall).
  - apply Forall_forall. intros entry Hin.
    apply in_map_iff in Hin as [ip_object [<- Hin]].
    apply filter_In in Hin as [Hin Ht].
    rewrite forallb_forall in Hall. specialize (Hall _ Hin).
    unfold falsy in Hall. rewrite Ht in Hall. cbn in Hall.
    now apply ip_object_entry_keys.
Qed.

(** X3.  One truthy element of [data] that is not a mapping, or whose
    [attributes] or [meta] is missing or not a mapping, makes the
    whole parse raise [AttributeError]: the entries of the other
    elements are not returned. *)
Theorem parse_ill_formed_element (results : pyval) (elements : list pyval) :
  py_get results "data" = Ok (PList elements) ->
  existsb (fun v => truthy v && negb (well_formed_ip_object v)) elements = true ->
  parse_get_ip_object_list_results results = Raise AttributeError.
Proof.
  intros H Hex. unfold parse_get_ip_object_list_results.
  rewrite H. cbn [rbind is_dict py_iter].
  now apply parse_loop_ill_formed.
Qed.

(** X4.  The parse raises nothing but [AttributeError] and
    [TypeError].  It raises [AttributeError] on a response that is not
    a mapping, and [TypeError] exactly when the response is a mapping
    whose [data] is [None] (or absent), a boolean or a number, which
    the loop cannot iterate over. *)
Theorem parse_errors (results : pyval) :
  (forall e, parse_get_ip_object_list_results results = Raise e ->
             e = AttributeError \/ e = TypeError)
  /\ (is_dict results = false ->
      parse_get_ip_object_list_results results = Raise AttributeError)
  /\ (parse_get_ip_object_list_results results = Raise TypeError <->
      exists data,
        py_get results "data" = Ok data
        /\ match data with
           | PNone | PBool _ | PInt _ => True
           | _ => False
           end).
Proof.
  unfold parse_get_ip_object_list_results.
  destruct results as [| | | | |d]; cbn [py_get rbind is_dict];
    try (split; [intros e H; inversion H; now left
                | split; [reflexivity
                         | split; [discriminate
                                  | intros [data [H _]]; discriminate]]]).
  split; [| split; [discriminate |]].
  - intros e H.
    destruct (dict_get d "data" PNone) as [| b | z | s | l | m];
      cbn [is_dict py_iter rbind] in H;
      try (inversion H; now right);
      apply parse_loop_error in H; now left.
  - split.
    + intros H. exists (dict_get d "data" PNone). split; [reflexivity |].
      destruct (dict_get d "data" PNone) as [| b | z | s | l | m];
        cbn [is_dict py_iter rbind] in H; try exact I;
        apply parse_loop_error in H; discriminate.
    + intros [data [Hd Hm]]. inversion Hd; subst.
      destruct (dict_get d "data" PNone); try contradiction; reflexivity.
Qed.

(** ** The add and delete commands *)

Lemma append_empty_r (a : string) : a ++ "" = a.
Proof.
  induction a as [|x a IH]; simpl; [reflexivity | now rewrite IH].
Qed.

(** X5.  With both arguments present the delete command sends exactly
    one request, a DELETE of [<list_type>/ip_objects/<object_id>] with
    an empty body and no query parameters.  When the service answers
    it returns the confirmation message and no structured output;
    when the client raises, the exception is passed on as it is. *)
Theorem delete_ip_objects_command_spec (client : Client) (args : dict)
  (list_type object_id : pyval) (w : world)
  (res : result pyval) (s' : remote) :
  dict_item args "list_type" = Ok list_type ->
  dict_item args "object_id" = Ok object_id ->
  let q := mk_request "DELETE" (PDict [])
                      (py_str list_type ++ "/ip_objects/" ++ py_str object_id)
                      (PDict []) (_headers client) "content" in
  _http_request (service w) q = (res, s') ->
  delete_ip_objects_command client args w
  = (match res with
     | Ok _ =>
         Ok (mk_CommandResults
               ("IP object with ID: " ++ py_str object_id ++
                " deleted successfully from the " ++ py_str list_type ++ " list.")
               None None None)
     | Raise e => Raise e
     end,
     mk_world s' (sent w ++ [q])%list).
Proof.
  intros Hlt Hid q Hq. unfold delete_ip_objects_command.
  unfold bind at 1. unfold lift at 1. rewrite Hlt.
  unfold bind at 1. unfold lift at 1. rewrite Hid.
  unfold bind at 1.
  rewrite (request_ip_objects_run _ _ _ _ _ _ _ _ _ Hq).
  destruct res; reflexivity.
Qed.

(** X6.  The handlers read their arguments before they call the
    service.  A missing [list_type] ends each of the three commands
    with [KeyError], a missing [IP] the add command, a missing
    [object_id] the delete command, and a [duration] that [int()]
    rejects ends the add command with the error of [int()]: in every
    case nothing has been sent. *)
Theorem missing_argument_sends_nothing (client : Client) (args : dict) (w : world) :
  (assoc "list_type" args = None ->
   add_ip_objects_command client args w = (Raise (KeyError "list_type"), w)
   /\ delete_ip_objects_command client args w = (Raise (KeyError "list_type"), w)
   /\ get_ip_objects_list_command client args w
      = (Raise (KeyError "list_type"), w))
  /\ (forall list_type,
         dict_item args "list_type" = Ok list_type ->
         assoc "IP" args = None ->
         add_ip_objects_command client args w = (Raise (KeyError "IP"), w))
  /\ (forall list_type,
         dict_item args "list_type" = Ok list_type ->
         assoc "object_id" args = None ->
         delete_ip_objects_command client args w
         = (Raise (KeyError "object_id"), w))
  /\ (forall list_type ip_address e,
         dict_item args "list_type" = Ok list_type ->
         dict_item args "IP" = Ok ip_address ->
         py_int (dict_get args "duration" (PInt 0)) = Raise e ->
         add_ip_objects_command client args w = (Raise e, w)).
Proof.
  split; [| split; [| split]].
  - intros H.
    unfold add_ip_objects_command, delete_ip_objects_command,
      get_ip_objects_list_command, list_fetch, bind, lift, dict_item.
    now rewrite H.
  - intros list_type Hlt H. unfold add_ip_objects_command.
    unfold bind at 1. unfold lift at 1. rewrite Hlt.
    unfold bind at 1. unfold lift at 1. unfold dict_item. now rewrite H.
  - intros list_type Hlt H. unfold delete_ip_objects_command.
    unfold bind at 1. unfold lift at 1. rewrite Hlt.
    unfold bind at 1. unfold lift at 1. unfold dict_item. now rewrite H.
  - intros list_type ip_address e Hlt Hip H. unfold add_ip_objects_command.
    unfold bind at 1. unfold lift at 1. rewrite Hlt.
    unfold bind at 1. unfold lift at 1. rewrite Hip.
    unfold bind at 1. unfold lift at 1. now rewrite H.
Qed.

(** X7.  With [list_type] and [IP] present and a [duration] that
    [int()] accepts, the add command sends exactly one request, a POST
    to [<list_type>/ip_objects] without query parameters.  Its body
    holds each optional argument that is given in place of its
    default: [list_target] at the top, [mask], the ip and the
    converted integer [duration] under [data.attributes], [note] and
    the list made of [tags] under [data.meta].  A client error is
    passed on and no results are returned. *)
Theorem add_ip_objects_command_request (client : Client) (args : dict)
  (list_type ip_address : pyval) (duration : Z) (w : world)
  (res : result pyval) (s' : remote) :
  dict_item args "list_type" = Ok list_type ->
  dict_item args "IP" = Ok ip_address ->
  py_int (dict_get args "duration" (PInt 0)) = Ok duration ->
  let body :=
    PDict [("list_target", dict_get args "list_target" (PStr "proxy-routed"));
           ("data",
            PDict [("id", PStr "");
                   ("type", PStr "ip_objects");
                   ("attributes",
                    PDict [("mask", dict_get args "mask" (PStr "32"));
                           ("ip", ip_address);
                           ("duration", PInt duration)]);
                   ("meta",
                    PDict [("note", dict_get args "note" (PStr ""));
                           ("tags",
                            PList (argToList
                                     (dict_get args "tags" (PList []))))])])] in
  let q := mk_request "POST" body (py_str list_type ++ "/ip_objects")
                      (PDict []) (_headers client) "content" in
  _http_request (service w) q = (res, s') ->
  add_ip_objects_command client args w
  = (match res with
     | Ok _ =>
         Ok (mk_CommandResults
               ("IP object with IP address: " ++ py_str ip_address ++
                " added successfully into the " ++ py_str list_type ++ " list.")
               None None None)
     | Raise e => Raise e
     end,
     mk_world s' (sent w ++ [q])%list).
Proof.
  intros Hlt Hip Hd body q Hq. unfold add_ip_objects_command.
  unfold bind at 1. unfold lift at 1. rewrite Hlt.
  unfold bind at 1. unfold lift at 1. rewrite Hip.
  unfold bind at 1. unfold lift at 1. rewrite Hd.
  unfold bind at 1. unfold define_body_for_add_ip_command. fold body.
  rewrite (request_ip_objects_run _ _ _ _ _ _ _ _ _ Hq).
  destruct res; reflexivity.
Qed.

(** ** The list command, case by case *)

Lemma list_command_of_fetch (client : Client) (args : dict) (w : world) :
  get_ip_objects_list_command client args w
  = match list_fetch client args w with
    | (Ok l, w') => (Ok (list_render l), w')
    | (Raise e, w') => (Raise e, w')
    end.
Proof.
  unfold get_ip_objects_list_command, bind.
  destruct (list_fetch client args w) as [[l|e] w']; reflexivity.
Qed.

Lemma list_command_sent_of_fetch (client : Client) (args : dict) (w : world) :
  snd (get_ip_objects_list_command client args w) = snd (list_fetch client args w).
Proof.
  rewrite list_command_of_fetch.
  destruct (list_fetch client args w) as [[l|e] w']; reflexivity.
Qed.

Lemma handle_paging_both (page_number page_size : pyval) (size number : Z) :
  truthy page_number = true ->
  truthy page_size = true ->
  py_int page_size = Ok size ->
  py_int page_number = Ok number ->
  handle_paging page_number page_size
  = Ok (true, PDict [("page[size]", PInt size); ("page[number]", PInt number)]).
Proof.
  intros Tn Ts Hs Hn. unfold handle_paging, paging_args_to_params.
  now rewrite Tn, Ts, Hs, Hn.
Qed.

(** The collection fetch sends its one request whatever comes of the
    response. *)
Lemma list_fetch_collection_sent (client : Client) (args : dict)
  (list_type : pyval) (required : bool) (params : pyval) (w : world) :
  dict_item args "list_type" = Ok list_type ->
  argToList (dict_get args "object_id" PNone) = [] ->
  handle_paging (dict_get args "page_number" PNone)
                (dict_get args "page_size" PNone) = Ok (required, params) ->
  snd (list_fetch client args w)
  = mk_world (snd (_http_request (service w) (list_request client list_type params)))
             (sent w ++ [list_request client list_type params])%list.
Proof.
  intros Hlt Hids Hp.
  rewrite (list_fetch_collection _ _ _ _ _ _ Hlt Hids Hp). cbv zeta.
  destruct (fst (_http_request (service w) (list_request client list_type params)))
    as [response|e]; [| reflexivity].
  destruct (py_get response "data") as [outputs|e]; [| reflexivity].
  destruct (parse_get_ip_object_list_results response) as [entries|e];
    [| reflexivity].
  destruct (required && truthy outputs); [| reflexivity].
  destruct (links <-- py_get response "links" ;;
            add_paging_to_outputs links (dict_get args "page_number" PNone))
    as [[c l]|e]; reflexivity.
Qed.

(** X8.  When page_number and page_size are both given and [int()]
    accepts them, paging is required and a listing of the whole
    collection sends exactly one request: the GET of
    [<list_type>/ip_objects] whose query parameters are [page[size]]
    with the converted page_size and [page[number]] with the converted
    page_number. *)
Theorem paged_collection_request (client : Client) (args : dict)
  (list_type : pyval) (size number : Z) (w : world) :
  dict_item args "list_type" = Ok list_type ->
  argToList (dict_get args "object_id" PNone) = [] ->
  truthy (dict_get args "page_number" PNone) = true ->
  truthy (dict_get args "page_size" PNone) = true ->
  py_int (dict_get args "page_size" PNone) = Ok size ->
  py_int (dict_get args "page_number" PNone) = Ok number ->
  let params := PDict [("page[size]", PInt size); ("page[number]", PInt number)] in
  handle_paging (dict_get args "page_number" PNone)
                (dict_get args "page_size" PNone) = Ok (true, params)
  /\ sent (snd (get_ip_objects_list_command client args w))
     = (sent w ++ [mk_request "GET" (PDict []) (py_str list_type ++ "/ip_objects")
                              params (_headers client) "json"])%list.
Proof.
  intros Hlt Hids Tn Ts Hs Hn params.
  pose proof (handle_paging_both _ _ _ _ Tn Ts Hs Hn) as Hp.
  split; [exact Hp |].
  rewrite list_command_sent_of_fetch.
  now rewrite (list_fetch_collection_sent _ _ _ _ _ _ Hlt Hids Hp).
Qed.

(** X9.  Without paging (page_number or page_size missing or falsy) a
    listing of the whole collection whose response parses returns the
    table of the parsed entries as its whole human-readable output,
    also when there is no entry: the guidance text is not used and no
    paging lines are added.  The structured output holds the [data]
    of the response as it came and the empty list as [Paging]. *)
Theorem list_command_unpaged (client : Client) (args : dict)
  (list_type response outputs : pyval) (entries : list pyval)
  (w : world) (s1 : remote) :
  dict_item args "list_type" = Ok list_type ->
  argToList (dict_get args "object_id" PNone) = [] ->
  truthy (dict_get args "page_number" PNone) = false
  \/ truthy (dict_get args "page_size" PNone) = false ->
  _http_request (service w) (list_request client list_type (PDict []))
  = (Ok response, s1) ->
  py_get response "data" = Ok outputs ->
  parse_get_ip_object_list_results response = Ok entries ->
  get_ip_objects_list_command client args w
  = (Ok (mk_CommandResults
           (tableToMarkdown "F5 Silverline IP Objects" entries
                            TABLE_HEADERS_GET_OBJECTS true)
           (Some "F5Silverline") (Some "id")
           (Some (PDict [("IPObjectList", outputs); ("Paging", PList [])]))),
     mk_world s1 (sent w ++ [list_request client list_type (PDict [])])%list).
Proof.
  intros Hlt Hids Hno Hq Hd Hparse.
  pose proof (handle_paging_not_required _ _ Hno) as Hp.
  rewrite list_command_of_fetch.
  rewrite (list_fetch_collection _ _ _ _ _ _ Hlt Hids Hp). cbv zeta.
  rewrite Hq. cbn [fst snd]. rewrite Hd, Hparse. cbn [andb].
  unfold list_render. cbn [human_results paging_data_human_readable
                            is_paging_required list_outputs paging_data].
  now rewrite andb_false_r, append_empty_r.
Qed.

(** X10.  With paging required, a collection response with a truthy
    [data] that parses, and page numbers [current] and [last] taken
    from its links, the command returns as [Paging] the mapping of
    [current_page_number], [current_page_size] and [last_page_number],
    where the page size is the page_size argument as it was given, and
    as human-readable output the table followed by the paging lines
    (or the guidance text, should no entry have been parsed). *)
Theorem list_command_paged (client : Client) (args : dict)
  (list_type params response outputs links current last : pyval)
  (entries : list pyval) (w : world) (s1 : remote) :
  dict_item args "list_type" = Ok list_type ->
  argToList (dict_get args "object_id" PNone) = [] ->
  handle_paging (dict_get args "page_number" PNone)
                (dict_get args "page_size" PNone) = Ok (true, params) ->
  _http_request (service w) (list_request client list_type params)
  = (Ok response, s1) ->
  py_get response "data" = Ok outputs ->
  truthy outputs = true ->
  parse_get_ip_object_list_results response = Ok entries ->
  py_get response "links" = Ok links ->
  add_paging_to_outputs links (dict_get args "page_number" PNone)
  = Ok (current, last) ->
  get_ip_objects_list_command client args w
  = (Ok (mk_CommandResults
           (match entries with
            | [] => NO_RESULTS_MESSAGE
            | _ :: _ =>
                tableToMarkdown "F5 Silverline IP Objects" entries
                                TABLE_HEADERS_GET_OBJECTS true ++
                paging_data_to_human_readable
                  current last (dict_get args "page_size" PNone)
            end)
           (Some "F5Silverline") (Some "id")
           (Some (PDict [("IPObjectList", outputs);
                         ("Paging",
                          PDict [("current_page_number", current);
                                 ("current_page_size",
                                  dict_get args "page_size" PNone);
                                 ("last_page_number", last)])]))),
     mk_world s1 (sent w ++ [list_request client list_type params])%list).
Proof.
  intros Hlt Hids Hp Hq Hd Ht Hparse Hl Ha.
  rewrite list_command_of_fetch.
  rewrite (list_fetch_collection _ _ _ _ _ _ Hlt Hids Hp). cbv zeta.
  rewrite Hq. cbn [fst snd]. rewrite Hd, Hparse, Ht. cbn [andb].
  rewrite Hl. cbn [rbind]. rewrite Ha.
  unfold list_render, paging_outputs_dict.
  cbn [human_results paging_data_human_readable
       is_paging_required list_outputs paging_data].
  destruct entries; reflexivity.
Qed.

(** X11.  With paging required and a collection response with a
    truthy [data] that parses, the command needs the [links] of the
    response: when they are absent (or anything but a mapping) it
    raises [AttributeError] after its request and returns nothing. *)
Theorem list_command_paged_without_links (client : Client) (args : dict)
  (list_type params response outputs links : pyval)
  (entries : list pyval) (w : world) (s1 : remote) :
  dict_item args "list_type" = Ok list_type ->
  argToList (dict_get args "object_id" PNone) = [] ->
  handle_paging (dict_get args "page_number" PNone)
                (dict_get args "page_size" PNone) = Ok (true, params) ->
  _http_request (service w) (list_request client list_type params)
  = (Ok response, s1) ->
  py_get response "data" = Ok outputs ->
  truthy outputs = true ->
  parse_get_ip_object_list_results response = Ok entries ->
  py_get response "links" = Ok links ->
  is_dict links = false ->
  get_ip_objects_list_command client args w
  = (Raise AttributeError,
     mk_world s1 (sent w ++ [list_request client list_type params])%list).
Proof.
  intros Hlt Hids Hp Hq Hd Ht Hparse Hl Hnd.
  rewrite list_command_of_fetch.
  rewrite (list_fetch_collection _ _ _ _ _ _ Hlt Hids Hp). cbv zeta.
  rewrite Hq. cbn [fst snd]. rewrite Hd, Hparse, Ht. cbn [andb].
  rewrite Hl. cbn [rbind].
  destruct links; try discriminate Hnd; reflexivity.
Qed.

(** X12.  When object ids are given and the fetch by id returns, the
    human-readable output is the table of the entries alone, with no
    paging lines and never the guidance text, whether paging was asked
    for or not; the structured output holds the list of the [data] of
    the responses and the empty list as [Paging]. *)
Theorem list_command_by_ids_output (client : Client) (args : dict)
  (list_type params : pyval) (object_ids entries datas : list pyval)
  (required : bool) (w w' : world) :
  dict_item args "list_type" = Ok list_type ->
  argToList (dict_get args "object_id" PNone) = object_ids ->
  object_ids <> [] ->
  handle_paging (dict_get args "page_number" PNone)
                (dict_get args "page_size" PNone) = Ok (required, params) ->
  get_ip_objects_by_ids client object_ids list_type params w
  = (Ok (entries, datas), w') ->
  get_ip_objects_list_command client args w
  = (Ok (mk_CommandResults
           (tableToMarkdown "F5 Silverline IP Objects" entries
                            TABLE_HEADERS_GET_OBJECTS true)
           (Some "F5Silverline") (Some "id")
           (Some (PDict [("IPObjectList", PList datas); ("Paging", PList [])]))),
     w').
Proof.
  intros Hlt Hids Hne Hp Hrun.
  destruct object_ids as [|object_id object_ids]; [now elim Hne |].
  rewrite (list_command_by_ids _ _ _ _ _ _ _ _ Hlt Hids Hp), Hrun.
  apply get_ip_objects_by_ids_length in Hrun.
  destruct entries as [|entry entries]; [discriminate Hrun |].
  unfold list_render.
  cbn [human_results paging_data_human_readable
       is_paging_required list_outputs paging_data andb].
  now rewrite append_empty_r.
Qed.

(** ** The requests of the handlers *)

Lemma list_fetch_requests (client : Client) (args : dict) (w w' : world)
  (r : result list_locals) :
  list_fetch client args w = (r, w') ->
  exists requests,
    sent w' = (sent w ++ requests)%list
    /\ Forall (is_get_of client) requests
    /\ (List.length requests
        <= Nat.max 1 (List.length (argToList (dict_get args "object_id" PNone))))%nat.
Proof.
  intros H.
  assert (Hnone : w' = w ->
                  exists requests,
                    sent w' = (sent w ++ requests)%list
                    /\ Forall (is_get_of client) requests
                    /\ (List.length requests
                        <= Nat.max 1 (List.length
                                        (argToList (dict_get args "object_id" PNone))))%nat).
  { intros ->. exists []. rewrite app_nil_r.
    split; [reflexivity | split; [constructor | cbn; lia]]. }
  destruct (dict_item args "list_type") as [list_type|e] eqn:Hlt.
  2:{ unfold list_fetch in H. unfold bind at 1 in H. unfold lift at 1 in H.
      rewrite Hlt in H. inversion H; subst. now apply Hnone. }
  destruct (handle_paging (dict_get args "page_number" PNone)
                          (dict_get args "page_size" PNone))
    as [[required params]|e] eqn:Hp.
  2:{ unfold list_fetch in H. unfold bind at 1 in H. unfold lift at 1 in H.
      rewrite Hlt in H. unfold bind at 1 in H. unfold lift at 1 in H.
      rewrite Hp in H. inversion H; subst. now apply Hnone. }
  destruct (argToList (dict_get args "object_id" PNone))
    as [|object_id object_ids] eqn:Hids.
  - pose proof (list_fetch_collection_sent client _ _ _ _ w Hlt Hids Hp) as Hs.
    rewrite H in Hs. cbn [snd] in Hs. subst w'.
    exists [list_request client list_type params]. cbn [sent].
    split; [reflexivity |]. split; [| cbn; lia].
    constructor; [| constructor]. now repeat split.
  - unfold list_fetch in H.
    unfold bind at 1 in H. unfold lift at 1 in H. rewrite Hlt, Hids in H.
    unfold bind at 1 in H. unfold lift at 1 in H. rewrite Hp in H.
    unfold bind at 1 in H.
    destruct (get_ip_objects_by_ids client (object_id :: object_ids)
                                    list_type params w)
      as [rr w1] eqn:E.
    unfold get_ip_objects_by_ids in E. apply by_ids_loop_spec in E.
    assert (Hget : forall ids,
               Forall (is_get_of client)
                      (map (id_request client list_type params) ids)).
    { intros ids. apply Forall_forall. intros q Hq.
      apply in_map_iff in Hq as [oid [<- _]]. now repeat split. }
    destruct rr as [[entries datas]|e].
    + inversion H; subst. destruct E as [Hs _].
      eexists; split; [exact Hs |]. split; [apply Hget |].
      rewrite length_map. lia.
    + inversion H; subst. destruct E as [done [oid [rest [Hd Hs]]]].
      eexists; split; [exact Hs |]. split; [apply Hget |].
      rewrite length_map, Hd, !length_app. cbn [List.length]. lia.
Qed.

Lemma list_command_requests (client : Client) (args : dict) (w w' : world)
  (r : result CommandResults) :
  get_ip_objects_list_command client args w = (r, w') ->
  exists requests,
    sent w' = (sent w ++ requests)%list
    /\ Forall (is_get_of client) requests
    /\ (List.length requests
        <= Nat.max 1 (List.length (argToList (dict_get args "object_id" PNone))))%nat.
Proof.
  intros H. apply list_command_world in H as [r' H].
  exact (list_fetch_requests _ _ _ _ _ H).
Qed.

Lemma test_module_request (client : Client) (w : world) :
  exists q,
    sent (snd (test_module client w)) = (sent w ++ [q])%list
    /\ is_get_of client q
    /\ req_url_suffix q = "denylist/ip_objects".
Proof.
  exists (mk_request "GET" (PDict []) "denylist/ip_objects" (PDict [])
                     (_headers client) "json").
  split; [| split; [now repeat split | reflexivity]].
  unfold test_module, request_ip_objects.
  destruct (_http_request (service w) _) as [[response|e] s1];
    [reflexivity |].
  destruct e; try reflexivity.
  destruct (contains "Unauthorized" msg); reflexivity.
Qed.

(** X13.  The list command and the connectivity check only read: all
    the requests they send are GET requests with an empty body and the
    headers of the client.  The connectivity check sends exactly one,
    the list command at most one for the collection or one per object
    id. *)
Theorem read_only_handlers (client : Client) (w : world) :
  (forall args r w',
      get_ip_objects_list_command client args w = (r, w') ->
      exists requests,
        sent w' = (sent w ++ requests)%list
        /\ Forall (is_get_of client) requests
        /\ (List.length requests
            <= Nat.max 1 (List.length
                            (argToList (dict_get args "object_id" PNone))))%nat)
  /\ (exists q,
         sent (snd (test_module client w)) = (sent w ++ [q])%list
         /\ is_get_of client q
         /\ req_url_suffix q = "denylist/ip_objects").
Proof.
  split.
  - intros args r w' H. exact (list_command_requests _ _ _ _ _ H).
  - apply test_module_request.
Qed.

(** ** The entry point *)

Lemma add_ip_objects_command_requests (client : Client) (args : dict)
  (w w' : world) (r : result CommandResults) :
  add_ip_objects_command client args w = (r, w') ->
  exists requests,
    sent w' = (sent w ++ requests)%list
    /\ Forall (fun q => req_method q = "POST"
                        /\ req_headers q = _headers client) requests
    /\ (List.length requests <= 1)%nat.
Proof.
  intros H. unfold add_ip_objects_command in H.
  unfold bind at 1 in H. unfold lift at 1 in H.
  destruct (dict_item args "list_type") as [list_type|e].
  2:{ inversion H; subst. exists []. rewrite app_nil_r.
      split; [reflexivity | split; [constructor | cbn; lia]]. }
  unfold bind at 1 in H. unfold lift at 1 in H.
  destruct (dict_item args "IP") as [ip_address|e].
  2:{ inversion H; subst. exists []. rewrite app_nil_r.
      split; [reflexivity | split; [constructor | cbn; lia]]. }
  unfold bind at 1 in H. unfold lift at 1 in H.
  destruct (py_int (dict_get args "duration" (PInt 0))) as [duration|e].
  2:{ inversion H; subst. exists []. rewrite app_nil_r.
      split; [reflexivity | split; [constructor | cbn; lia]]. }
  unfold bind at 1 in H. unfold request_ip_objects in H.
  destruct (_http_request (service w) _) as [[response|e] s1];
    inversion H; subst; cbn [sent];
    (eexists; split; [reflexivity |]; split; [| cbn; lia]);
    (constructor; [| constructor]); now split.
Qed.

Lemma delete_ip_objects_command_requests (client : Client) (args : dict)
  (w w' : world) (r : result CommandResults) :
  delete_ip_objects_command client args w = (r, w') ->
  exists requests,
    sent w' = (sent w ++ requests)%list
    /\ Forall (fun q => req_method q = "DELETE"
                        /\ req_headers q = _headers client) requests
    /\ (List.length requests <= 1)%nat.
Proof.
  intros H. unfold delete_ip_objects_command in H.
  unfold bind at 1 in H. unfold lift at 1 in H.
  destruct (dict_item args "list_type") as [list_type|e].
  2:{ inversion H; subst. exists []. rewrite app_nil_r.
      split; [reflexivity | split; [constructor | cbn; lia]]. }
  unfold bind at 1 in H. unfold lift at 1 in H.
  destruct (dict_item args "object_id") as [object_id|e].
  2:{ inversion H; subst. exists []. rewrite app_nil_r.
      split; [reflexivity | split; [constructor | cbn; lia]]. }
  unfold bind at 1 in H. unfold request_ip_objects in H.
  destruct (_http_request (service w) _) as [[response|e] s1];
    inversion H; subst; cbn [sent];
    (eexists; split; [reflexivity |]; split; [| cbn; lia]);
    (constructor; [| constructor]); now split.
Qed.

Lemma bind_ret_world {A B : Type} (m : M A) (f : A -> B) (w w' : world)
  (r : result B) :
  bind m (fun a => ret (f a)) w = (r, w') ->
  exists r', m w = (r', w').
Proof.
  unfold bind, ret. destruct (m w) as [[a|e] w1]; intros H;
    inversion H; subst; eauto.
Qed.

Lemma main_with_token (params : dict) (command : string) (args : dict)
  (w : world) (access_token : pyval) (base_url : string) :
  py_get (dict_get params "token" PNone) "password" = Ok access_token ->
  urljoin (dict_get params "url" PNone) BASE_URL = Ok base_url ->
  main params command args w
  = match dispatch (build_client params access_token base_url) command args with
    | Some handler =>
        match handler w with
        | (Ok output, w') => (Ok (Returned output), w')
        | (Raise e, w') =>
            (Ok (Failed (failure_message command (exn_str e))), w')
        end
    | None =>
        (Ok (Failed (failure_message command
                       (command ++ " is not an existing F5 Silverline command"))),
         w)
    end.
Proof.
  intros H Hu. unfold main. now rewrite H, Hu.
Qed.

(** X14.  Let the token have been read.  When [urljoin] raises on
    the [url] parameter, [main] raises that exception itself, with
    nothing sent.  When [urljoin] gives the base address, [main] does
    not raise: it runs the handler of the command with the client
    built from the parameters, hands the result of the handler to
    [return_results], and turns every exception of the handler into
    [return_error] with the text "Failed to execute <command>
    command.", "Error:" and the text of the exception. *)
Theorem main_reports_every_exception (params : dict) (command : string)
  (args : dict) (w : world) (access_token : pyval) :
  py_get (dict_get params "token" PNone) "password" = Ok access_token ->
  (forall e,
      urljoin (dict_get params "url" PNone) BASE_URL = Raise e ->
      main params command args w = (Raise e, w))
  /\ (forall base_url,
         urljoin (dict_get params "url" PNone) BASE_URL = Ok base_url ->
         let client := build_client params access_token base_url in
         (command = "test-module" ->
          main params command args w
          = report command TextOutput (test_module client w))
         /\ (command = "f5-silverline-ip-objects-list" ->
             main params command args w
             = report command ResultsOutput
                      (get_ip_objects_list_command client args w))
         /\ (command = "f5-silverline-ip-object-add" ->
             main params command args w
             = report command ResultsOutput
                      (add_ip_objects_command client args w))
         /\ (command = "f5-silverline-ip-object-delete" ->
             main params command args w
             = report command ResultsOutput
                      (delete_ip_objects_command client args w))
         /\ (exists o, fst (main params command args w) = Ok o)).
Proof.
  intros Ht. split.
  { intros e Hu. unfold main. now rewrite Ht, Hu. }
  intros base_url Hu client.
  rewrite (main_with_token _ _ _ _ _ _ Ht Hu). fold client.
  split; [| split; [| split; [| split]]].
  - intros ->. cbn [dispatch String.eqb Ascii.eqb Bool.eqb]. unfold bind, ret, report.
    destruct (test_module client w) as [[m|e] w']; reflexivity.
  - intros ->. cbn [dispatch String.eqb Ascii.eqb Bool.eqb]. unfold bind at 1.
    unfold ret, report.
    destruct (get_ip_objects_list_command client args w) as [[m|e] w'];
      reflexivity.
  - intros ->. cbn [dispatch String.eqb Ascii.eqb Bool.eqb]. unfold bind at 1.
    unfold ret, report.
    destruct (add_ip_objects_command client args w) as [[m|e] w'];
      reflexivity.
  - intros ->. cbn [dispatch String.eqb Ascii.eqb Bool.eqb]. unfold bind at 1.
    unfold ret, report.
    destruct (delete_ip_objects_command client args w) as [[m|e] w'];
      reflexivity.
  - destruct (dispatch client command args) as [handler|].
    + destruct (handler w) as [[output|e] w']; eexists; reflexivity.
    + eexists; reflexivity.
Qed.

(** X15.  With the token read and the base address joined, a command
    that is none of the four ends in [return_error] with the text
    that it is not an existing F5 Silverline command, and nothing is
    sent to the service. *)
Theorem main_unknown_command (params : dict) (command : string)
  (args : dict) (w : world) (access_token : pyval) (base_url : string) :
  py_get (dict_get params "token" PNone) "password" = Ok access_token ->
  urljoin (dict_get params "url" PNone) BASE_URL = Ok base_url ->
  known_command command = false ->
  main params command args w
  = (Ok (Failed (failure_message command
                   (command ++ " is not an existing F5 Silverline command"))),
     w).
Proof.
  intros Ht Hu Hk. rewrite (main_with_token _ _ _ _ _ _ Ht Hu).
  unfold known_command in Hk.
  apply orb_false_iff in Hk as [Hk H4].
  apply orb_false_iff in Hk as [Hk H3].
  apply orb_false_iff in Hk as [H1 H2].
  unfold dispatch. now rewrite H1, H2, H3, H4.
Qed.

(** X16.  Every request a run of [main] sends carries the two headers
    [X-Authorization-Token], with the password of the [token]
    parameter, and [Content-Type: application/json]; and its method is
    the one of the command: POST for the add command, DELETE for the
    delete command, GET for the list command and the connectivity
    check. *)
Theorem main_requests (params : dict) (command : string) (args : dict)
  (w w' : world) (r : result outcome) (access_token : pyval) :
  py_get (dict_get params "token" PNone) "password" = Ok access_token ->
  main params command args w = (r, w') ->
  exists requests,
    sent w' = (sent w ++ requests)%list
    /\ Forall (fun q =>
                 req_headers q
                 = PDict [("X-Authorization-Token", access_token);
                          ("Content-Type", PStr "application/json")]
                 /\ req_method q = command_method command)
              requests.
Proof.
  intros Ht H.
  destruct (urljoin (dict_get params "url" PNone) BASE_URL) as [base_url|e0]
    eqn:Hu.
  2:{ unfold main in H. rewrite Ht, Hu in H. inversion H; subst.
      exists []. rewrite app_nil_r. split; [reflexivity | constructor]. }
  rewrite (main_with_token _ _ _ _ _ _ Ht Hu) in H.
  set (client := build_client params access_token base_url) in *.
  assert (Hh : _headers client
               = PDict [("X-Authorization-Token", access_token);
                        ("Content-Type", PStr "application/json")])
    by reflexivity.
  assert (Hw : forall (A : Type) (handler : M A) (wrap : A -> command_output),
             match bind handler (fun a => ret (wrap a)) w with
             | (Ok output, w1) => (Ok (Returned output), w1)
             | (Raise e, w1) =>
                 (Ok (Failed (failure_message command (exn_str e))), w1)
             end = (r, w') ->
             exists r', handler w = (r', w')).
  { intros A handler wrap Hm. unfold bind, ret in Hm.
    destruct (handler w) as [[a|e] w1]; inversion Hm; subst; eauto. }
  unfold dispatch in H.
  destruct (String.eqb command "test-module") eqn:E1.
  { apply String.eqb_eq in E1; subst command.
    apply Hw in H as [r' H].
    destruct (test_module_request client w) as [q [Hs [[Hm [_ [Hq _]]] _]]].
    rewrite H in Hs. cbn [snd] in Hs.
    exists [q]. split; [exact Hs |].
    constructor; [| constructor]. split; [congruence | exact Hm]. }
  destruct (String.eqb command "f5-silverline-ip-objects-list") eqn:E2.
  { apply String.eqb_eq in E2; subst command.
    apply Hw in H as [r' H].
    destruct (list_command_requests _ _ _ _ _ H)
      as [requests [Hs [Hall _]]].
    exists requests. split; [exact Hs |].
    eapply Forall_impl; [| exact Hall].
    intros q [Hm [_ [Hq _]]]. split; [congruence | exact Hm]. }
  destruct (String.eqb command "f5-silverline-ip-object-add") eqn:E3.
  { apply String.eqb_eq in E3; subst command.
    apply Hw in H as [r' H].
    destruct (add_ip_objects_command_requests _ _ _ _ _ H)
      as [requests [Hs [Hall _]]].
    exists requests. split; [exact Hs |].
    eapply Forall_impl; [| exact Hall].
    intros q [Hm Hq]. split; [congruence | exact Hm]. }
  destruct (String.eqb command "f5-silverline-ip-object-delete") eqn:E4.
  { apply String.eqb_eq in E4; subst command.
    apply Hw in H as [r' H].
    destruct (delete_ip_objects_command_requests _ _ _ _ _ H)
      as [requests [Hs [Hall _]]].
    exists requests. split; [exact Hs |].
    eapply Forall_impl; [| exact Hall].
    intros q [Hm Hq]. split; [congruence | exact Hm]. }
  inversion H; subst. exists []. rewrite app_nil_r. split; [reflexivity | constructor].
Qed.

(** X17.  The token is read before the [try]: when the [token]
    parameter is missing (or is not a mapping) [main] raises
    [AttributeError] itself, for every command; nothing is sent and
    nothing is reported through [return_error]. *)
Theorem main_without_token (params : dict) (command : string)
  (args : dict) (w : world) :
  is_dict (dict_get params "token" PNone) = false ->
  main params command args w = (Raise AttributeError, w).
Proof.
  intros H. unfold main.
  destruct (dict_get params "token" PNone); try discriminate H; reflexivity.
Qed.

(** ** More on paging *)

(** X18.  Whatever [add_paging_to_outputs] returns is read off as
    follows: the current page number is the text matched in the self
    link, which has neither [&] nor a newline in it, when that link is
    truthy, and the caller's page_number otherwise; the last page
    number is the text matched in the last link when that link is
    truthy, and the current page number otherwise.  A page number
    taken from a link is thus always text, never an integer. *)
Theorem add_paging_to_outputs_returns (paging_dict : dict)
  (page_number current last : pyval) :
  add_paging_to_outputs (PDict paging_dict) page_number = Ok (current, last) ->
  (if truthy (dict_get paging_dict "self" PNone)
   then exists link g,
       dict_get paging_dict "self" PNone = PStr link
       /\ re_search_PAGE_NUMBER_PATTERN link = Some g
       /\ page_value g = true
       /\ current = PStr g
   else current = page_number)
  /\ (if truthy (dict_get paging_dict "last" PNone)
      then exists link g,
          dict_get paging_dict "last" PNone = PStr link
          /\ re_search_PAGE_NUMBER_PATTERN link = Some g
          /\ page_value g = true
          /\ last = PStr g
      else last = current).
Proof.
  unfold add_paging_to_outputs; cbn [py_get rbind].
  assert (Hsearch : forall v r,
             search_group0 v = Ok r ->
             exists link g,
               v = PStr link
               /\ re_search_PAGE_NUMBER_PATTERN link = Some g
               /\ page_value g = true
               /\ r = PStr g).
  { intros v r H. destruct v as [| | |link| |]; try discriminate H.
    cbn [search_group0] in H.
    destruct (re_search_PAGE_NUMBER_PATTERN link) as [g|] eqn:E;
      [| discriminate H].
    inversion H; subst. exists link, g.
    destruct (re_search_Some _ _ E) as [pre [post [_ Hg]]].
    now repeat split. }
  destruct (truthy (dict_get paging_dict "self" PNone)).
  - destruct (search_group0 (dict_get paging_dict "self" PNone)) as [c|e] eqn:Ec;
      cbn [rbind]; [| discriminate].
    destruct (truthy (dict_get paging_dict "last" PNone)).
    + destruct (search_group0 (dict_get paging_dict "last" PNone)) as [l|e] eqn:El;
        cbn [rbind]; [| discriminate].
      intros H; inversion H; subst. split; now apply Hsearch.
    + cbn [rbind]. intros H; inversion H; subst.
      split; [now apply Hsearch | reflexivity].
  - cbn [rbind].
    destruct (truthy (dict_get paging_dict "last" PNone)).
    + destruct (search_group0 (dict_get paging_dict "last" PNone)) as [l|e] eqn:El;
        cbn [rbind]; [| discriminate].
      intros H; inversion H; subst. split; [reflexivity | now apply Hsearch].
    + cbn [rbind]. intros H; inversion H; subst. split; reflexivity.
Qed.

(** X19.  With paging required, a collection response whose [data] is
    falsy and parses to no entry gives the guidance text as
    human-readable output and, as structured output, that [data] with
    the empty list as [Paging]: the links of the response are not
    read. *)
Theorem list_command_paged_empty (client : Client) (args : dict)
  (list_type params response outputs : pyval) (w : world) (s1 : remote) :
  dict_item args "list_type" = Ok list_type ->
  argToList (dict_get args "object_id" PNone) = [] ->
  handle_paging (dict_get args "page_number" PNone)
                (dict_get args "page_size" PNone) = Ok (true, params) ->
  _http_request (service w) (list_request client list_type params)
  = (Ok response, s1) ->
  py_get response "data" = Ok outputs ->
  truthy outputs = false ->
  parse_get_ip_object_list_results response = Ok [] ->
  get_ip_objects_list_command client args w
  = (Ok (mk_CommandResults
           NO_RESULTS_MESSAGE (Some "F5Silverline") (Some "id")
           (Some (PDict [("IPObjectList", outputs); ("Paging", PList [])]))),
     mk_world s1 (sent w ++ [list_request client list_type params])%list).
Proof.
  intros Hlt Hids Hp Hq Hd Ht Hparse.
  rewrite list_command_of_fetch.
  rewrite (list_fetch_collection _ _ _ _ _ _ Hlt Hids Hp). cbv zeta.
  rewrite Hq. cbn [fst snd]. rewrite Hd, Hparse, Ht. reflexivity.
Qed.

End Handlers.

(** * The properties at work

    The handlers run in the reference environment: text and numbers
    are rendered by [scalar_str], [int()] reads decimal digits, and the
    service is a table of answers. *)

Abbreviation world0 := (mk_world unit tt []).

Abbreviation run_by_ids service :=
  (get_ip_objects_by_ids scalar_str unit service).

Abbreviation run_list service :=
  (get_ip_objects_list_command scalar_str decimal_int_of_text
                               plain_argToList title_table unit service).

Abbreviation run_add service :=
  (add_ip_objects_command scalar_str decimal_int_of_text plain_argToList
                          unit service).



Lemma add_paging_to_outputs_requires_amp_witness :
  let link := "https://h/ip_objects?page[size]=5&page[number]=3" in
  contains PAGE_NUMBER_LOOKBEHIND link = true
  /\ amp_after PAGE_NUMBER_LOOKBEHIND link = false
  /\ add_paging_to_outputs (PDict [("self", PStr link)]) (PStr "3")
     = Raise AttributeError
  /\ (add_paging_to_outputs
        (PDict [("self", PStr "https://h/ip_objects?page[number]=1&page[size]=5");
                ("last", PStr link)])
        (PStr "1")
      = Raise AttributeError
      \/ add_paging_to_outputs
           (PDict [("self", PStr "https://h/ip_objects?page[number]=1&page[size]=5");
                   ("last", PStr link)])
           (PStr "1")
         = Raise TypeError).
Proof.
  intros link. split; [reflexivity | split; [reflexivity | split]].
  - apply (proj1 (add_paging_to_outputs_requires_amp
                    [("self", PStr link)] (PStr "3") link eq_refl eq_refl)).
    reflexivity.
  - apply (proj2 (add_paging_to_outputs_requires_amp
                    [("self", PStr "https://h/ip_objects?page[number]=1&page[size]=5");
                     ("last", PStr link)]
                    (PStr "1") link eq_refl eq_refl)).
    reflexivity.
Defined.

(** A page size given as a list: [int()] raises [TypeError], which is
    not the validation error. *)
Lemma paging_args_to_params_list_input :
  paging_args_to_params decimal_int_of_text (PList [PStr "5"]) (PStr "1")
  = Raise TypeError
  /\ run_list denylist_service a_client
       [("list_type", PStr "denylist");
        ("page_number", PStr "1"); ("page_size", PList [PStr "5"])]
       world0
     = (Raise TypeError, world0).
Proof. split; reflexivity. Qed.

Lemma paging_args_to_params_spec_witness :
  paging_args_to_params decimal_int_of_text (PStr "5") (PStr "2")
  = Ok (PDict [("page[size]", PInt 5); ("page[number]", PInt 2)])
  /\ paging_args_to_params decimal_int_of_text (PStr "five") (PStr "2")
     = Raise (ValueError "page_number and page_size should be numbers")
  /\ paging_args_to_params decimal_int_of_text (PStr "5") (PStr "two")
     = Raise (ValueError "page_number and page_size should be numbers")
  /\ run_list denylist_service a_client
       [("list_type", PStr "denylist");
        ("page_number", PStr "2"); ("page_size", PStr "five")]
       world0
     = (Raise (ValueError "page_number and page_size should be numbers"), world0).
Proof.
  split; [| split; [| split]].
  - apply (proj1 (paging_args_to_params_spec
                    scalar_str decimal_int_of_text plain_argToList title_table
                    unit denylist_service (PStr "5") (PStr "2")) 5%Z 2%Z);
      reflexivity.
  - apply (proj1 (proj2 (paging_args_to_params_spec
                           scalar_str decimal_int_of_text plain_argToList title_table
                           unit denylist_service (PStr "five") (PStr "2")))
                 "invalid literal for int() with base 10: 'five'");
      reflexivity.
  - apply (proj1 (proj2 (proj2 (paging_args_to_params_spec
                                  scalar_str decimal_int_of_text plain_argToList
                                  title_table unit denylist_service
                                  (PStr "5") (PStr "two"))))
                 5%Z "invalid literal for int() with base 10: 'two'");
      reflexivity.
  - apply (proj2 (proj2 (proj2 (paging_args_to_params_spec
                                  scalar_str decimal_int_of_text plain_argToList
                                  title_table unit denylist_service
                                  (PStr "five") (PStr "2"))))
                 a_client
                 [("list_type", PStr "denylist");
                  ("page_number", PStr "2"); ("page_size", PStr "five")]
                 (PStr "denylist"));
      reflexivity.
Defined.

Lemma handle_paging_one_argument_witness :
  (truthy (PStr "3") = false \/ truthy PNone = false)
  /\ handle_paging decimal_int_of_text (PStr "3") PNone = Ok (false, PDict [])
  /\ exists requests,
      sent unit (snd (run_list denylist_service a_client
                        [("list_type", PStr "denylist"); ("page_number", PStr "3")]
                        world0))
      = ([] ++ requests)%list
      /\ Forall (fun q => req_params q = PDict []) requests.
Proof.
  assert (H : truthy (PStr "3") = false \/ truthy PNone = false)
    by (right; reflexivity).
  split; [exact H |].
  destruct (handle_paging_one_argument
              scalar_str decimal_int_of_text plain_argToList title_table
              unit denylist_service (PStr "3") PNone H) as [Hp Hc].
  split; [exact Hp |].
  apply (Hc a_client
            [("list_type", PStr "denylist"); ("page_number", PStr "3")]
            world0
            (fst (run_list denylist_service a_client
                    [("list_type", PStr "denylist"); ("page_number", PStr "3")]
                    world0)));
    [reflexivity | reflexivity |].
  now destruct (run_list denylist_service a_client _ world0).
Defined.

Lemma parse_single_mapping_as_list_witness :
  py_get (PDict [("data", ip_object_a)]) "data" = Ok ip_object_a
  /\ py_get (PDict [("data", PList [ip_object_a])]) "data" = Ok (PList [ip_object_a])
  /\ parse_get_ip_object_list_results (PDict [("data", ip_object_a)])
     = parse_get_ip_object_list_results (PDict [("data", PList [ip_object_a])]).
Proof.
  split; [reflexivity | split; [reflexivity |]].
  unfold ip_object_a.
  now apply parse_single_mapping_as_list with (m := match ip_object_a with
                                                    | PDict m => m
                                                    | _ => []
                                                    end).
Defined.




(** Paging requested and nothing parsed, yet no guidance text: a
    collection whose [data] is one empty object and that has no links
    makes the command raise when it reads the links, and an object id
    answered with an empty [data] makes it raise at the first parsed
    entry. *)
Lemma list_command_nothing_parsed_raises :
  parse_get_ip_object_list_results (PDict [("data", PList [PDict []])]) = Ok []
  /\ fst (run_list blank_page_service a_client
            [("list_type", PStr "denylist");
             ("page_number", PStr "1"); ("page_size", PStr "5")]
            world0)
     = Raise AttributeError
  /\ parse_get_ip_object_list_results (PDict [("data", PList [])]) = Ok []
  /\ fst (run_list empty_service a_client
            [("list_type", PStr "denylist"); ("object_id", PStr "b");
             ("page_number", PStr "1"); ("page_size", PStr "5")]
            world0)
     = Raise IndexError.
Proof. repeat split; reflexivity. Qed.

Lemma list_command_no_results_witness :
  let args := [("list_type", PStr "denylist");
               ("page_number", PStr "1"); ("page_size", PStr "5")] in
  truthy (dict_get args "page_number" PNone) = true
  /\ truthy (dict_get args "page_size" PNone) = true
  /\ exists results,
      run_list empty_service a_client args world0
      = (Ok results,
         mk_world unit tt
           [list_request scalar_str a_client (PStr "denylist")
              (PDict [("page[size]", PInt 5); ("page[number]", PInt 1)])])
      /\ readable_output results = NO_RESULTS_MESSAGE.
Proof.
  intros args. split; [reflexivity | split; [reflexivity |]].
  apply (proj2 (list_command_no_results
                  scalar_str decimal_int_of_text plain_argToList title_table
                  unit empty_service a_client args world0 eq_refl eq_refl)
               (PStr "denylist") true
               (PDict [("page[size]", PInt 5); ("page[number]", PInt 1)])
               (PDict [("data", PList [])]) tt (PList []));
    reflexivity.
Defined.

Lemma add_ip_objects_command_defaults_witness :
  let args := [("list_type", PStr "denylist"); ("IP", PStr "1.2.3.4")] in
  let q :=
    mk_request "POST"
      (PDict [("list_target", PStr "proxy-routed");
              ("data",
               PDict [("id", PStr "");
                      ("type", PStr "ip_objects");
                      ("attributes",
                       PDict [("mask", PStr "32");
                              ("ip", PStr "1.2.3.4");
                              ("duration", PInt 0)]);
                      ("meta",
                       PDict [("note", PStr "");
                              ("tags", PList [])])])])
      "denylist/ip_objects" (PDict []) (_headers a_client) "content" in
  plain_argToList (PList []) = []
  /\ sent unit (snd (run_add denylist_service a_client args world0)) = [q]
  /\ run_add denylist_service a_client args world0
     = (Ok (mk_CommandResults
              "IP object with IP address: 1.2.3.4 added successfully into the denylist list."
              None None None),
        mk_world unit tt [q]).
Proof.
  intros args q. split; [reflexivity |].
  pose proof (add_ip_objects_command_defaults
                scalar_str decimal_int_of_text plain_argToList
                unit denylist_service a_client args
                (PStr "denylist") (PStr "1.2.3.4") world0
                eq_refl eq_refl eq_refl eq_refl eq_refl eq_refl eq_refl eq_refl)
    as [Hsent Hreturn].
  split; [exact Hsent |].
  exact (Hreturn _ tt eq_refl).
Defined.

(** A response without [data] for the id: the fetch raises, but from
    the iteration over [None], not from an index. *)
Lemma get_ip_objects_by_ids_absent_data :
  fst (run_by_ids empty_service a_client [PStr "a"] (PStr "denylist") (PDict [])
                  world0)
  = Raise TypeError.
Proof. reflexivity. Qed.

Lemma get_ip_objects_by_ids_no_entry_witness :
  fst (run_by_ids empty_service a_client [PStr "b"] (PStr "denylist") (PDict [])
                  world0)
  = Raise IndexError
  /\ fst (run_by_ids empty_service a_client [PStr "c"] (PStr "denylist") (PDict [])
                     world0)
     = Raise IndexError
  /\ fst (run_by_ids empty_service a_client [PStr "a"] (PStr "denylist") (PDict [])
                     world0)
     = Raise TypeError.
Proof.
  split; [| split].
  - exact (f_equal fst
             (proj1 (get_ip_objects_by_ids_no_entry
                       scalar_str unit empty_service a_client [] (PStr "b") []
                       (PStr "denylist") (PDict []) world0 [] [] [] tt tt
                       (PDict [("data", PList [])])
                       (answers_nil unit empty_service tt)
                       (Forall2_nil _) (Forall2_nil _) eq_refl)
                    [] eq_refl eq_refl)).
  - exact (f_equal fst
             (proj1 (proj2 (get_ip_objects_by_ids_no_entry
                              scalar_str unit empty_service a_client [] (PStr "c") []
                              (PStr "denylist") (PDict []) world0 [] [] [] tt tt
                              (PDict [("data", PDict [])])
                              (answers_nil unit empty_service tt)
                              (Forall2_nil _) (Forall2_nil _) eq_refl))
                    eq_refl)).
  - exact (f_equal fst
             (proj2 (proj2 (get_ip_objects_by_ids_no_entry
                              scalar_str unit empty_service a_client [] (PStr "a") []
                              (PStr "denylist") (PDict []) world0 [] [] [] tt tt
                              (PDict [("links", PDict [])])
                              (answers_nil unit empty_service tt)
                              (Forall2_nil _) (Forall2_nil _) eq_refl))
                    eq_refl)).
Defined.

(** ** Further properties at work *)

Abbreviation run_delete service :=
  (delete_ip_objects_command scalar_str unit service).

Abbreviation run_main service :=
  (main scalar_str decimal_int_of_text plain_argToList title_table unit service
        join_url exn_text).

Lemma parse_drops_falsy_elements_witness :
  let elements := [PNone; ip_object_a; PDict []; ip_object_b; PStr ""] in
  py_get (PDict [("data", PList elements)]) "data" = Ok (PList elements)
  /\ py_get (PDict [("data", PList [ip_object_a; ip_object_b])]) "data"
     = Ok (PList (filter truthy elements))
  /\ parse_get_ip_object_list_results (PDict [("data", PList elements)])
     = parse_get_ip_object_list_results
         (PDict [("data", PList [ip_object_a; ip_object_b])]).
Proof.
  intros elements. split; [reflexivity | split; [reflexivity |]].
  exact (parse_drops_falsy_elements
           (PDict [("data", PList elements)])
           (PDict [("data", PList [ip_object_a; ip_object_b])])
           elements eq_refl eq_refl).
Defined.

Lemma parse_well_formed_data_witness :
  let elements := [PNone; ip_object_a; ip_object_b] in
  forallb (fun v => falsy v || well_formed_ip_object v) elements = true
  /\ parse_get_ip_object_list_results (PDict [("data", PList elements)])
     = Ok [entry_of "a" "1.2.3.4" "2021-01-01" "2021-01-02";
           entry_of "b" "5.6.7.8" "2021-02-01" "2021-02-02"].
Proof.
  intros elements. split; [reflexivity |].
  exact (proj1 (parse_well_formed_data (PDict [("data", PList elements)])
                                       elements eq_refl eq_refl)).
Defined.

Lemma parse_ill_formed_element_witness :
  let elements := [ip_object_a; PDict [("id", PStr "x")]] in
  existsb (fun v => truthy v && negb (well_formed_ip_object v)) elements = true
  /\ parse_get_ip_object_list_results (PDict [("data", PList elements)])
     = Raise AttributeError.
Proof.
  intros elements. split; [reflexivity |].
  exact (parse_ill_formed_element (PDict [("data", PList elements)])
                                  elements eq_refl eq_refl).
Defined.

Lemma parse_errors_witness :
  parse_get_ip_object_list_results (PList [ip_object_a]) = Raise AttributeError
  /\ parse_get_ip_object_list_results (PDict [("links", PDict [])])
     = Raise TypeError.
Proof.
  split.
  - exact (proj1 (proj2 (parse_errors (PList [ip_object_a]))) eq_refl).
  - apply (proj2 (proj2 (parse_errors (PDict [("links", PDict [])])))).
    exists PNone. split; [reflexivity | exact I].
Defined.

Lemma delete_ip_objects_command_spec_witness :
  let args := [("list_type", PStr "denylist"); ("object_id", PStr "a")] in
  let q := mk_request "DELETE" (PDict []) "denylist/ip_objects/a" (PDict [])
                      (_headers a_client) "content" in
  run_delete denylist_service a_client args world0
  = (Ok (mk_CommandResults
           "IP object with ID: a deleted successfully from the denylist list."
           None None None),
     mk_world unit tt [q])
  /\ run_delete (failing_service (DemistoException "Error in API call [404] - Not Found"))
                a_client args world0
     = (Raise (DemistoException "Error in API call [404] - Not Found"),
        mk_world unit tt [q]).
Proof.
  intros args q. split.
  - exact (delete_ip_objects_command_spec
             scalar_str unit denylist_service a_client args
             (PStr "denylist") (PStr "a") world0 _ tt eq_refl eq_refl eq_refl).
  - exact (delete_ip_objects_command_spec
             scalar_str unit _ a_client args
             (PStr "denylist") (PStr "a") world0 _ tt eq_refl eq_refl eq_refl).
Defined.

Lemma missing_argument_sends_nothing_witness :
  run_list denylist_service a_client [("page_number", PStr "1")] world0
  = (Raise (KeyError "list_type"), world0)
  /\ run_add denylist_service a_client [("list_type", PStr "denylist")] world0
     = (Raise (KeyError "IP"), world0)
  /\ run_delete denylist_service a_client [("list_type", PStr "denylist")] world0
     = (Raise (KeyError "object_id"), world0)
  /\ run_add denylist_service a_client
       [("list_type", PStr "denylist"); ("IP", PStr "1.2.3.4");
        ("duration", PStr "soon")]
       world0
     = (Raise (ValueError "invalid literal for int() with base 10: 'soon'"), world0).
Proof.
  split; [| split; [| split]].
  - exact (proj2 (proj2 (proj1 (missing_argument_sends_nothing
                                  scalar_str decimal_int_of_text plain_argToList
                                  title_table unit denylist_service a_client
                                  [("page_number", PStr "1")] world0)
                               eq_refl))).
  - exact (proj1 (proj2 (missing_argument_sends_nothing
                           scalar_str decimal_int_of_text plain_argToList
                           title_table unit denylist_service a_client
                           [("list_type", PStr "denylist")] world0))
                 (PStr "denylist") eq_refl eq_refl).
  - exact (proj1 (proj2 (proj2 (missing_argument_sends_nothing
                                  scalar_str decimal_int_of_text plain_argToList
                                  title_table unit denylist_service a_client
                                  [("list_type", PStr "denylist")] world0)))
                 (PStr "denylist") eq_refl eq_refl).
  - exact (proj2 (proj2 (proj2 (missing_argument_sends_nothing
                                  scalar_str decimal_int_of_text plain_argToList
                                  title_table unit denylist_service a_client
                                  [("list_type", PStr "denylist");
                                   ("IP", PStr "1.2.3.4");
                                   ("duration", PStr "soon")] world0)))
                 (PStr "denylist") (PStr "1.2.3.4") _ eq_refl eq_refl eq_refl).
Defined.

Lemma add_ip_objects_command_request_witness :
  let args := [("list_type", PStr "allowlist"); ("IP", PStr "10.0.0.0");
               ("list_target", PStr "routed"); ("mask", PStr "24");
               ("duration", PStr "60"); ("note", PStr "lab");
               ("tags", PList [PStr "t1"; PStr "t2"])] in
  let q :=
    mk_request "POST"
      (PDict [("list_target", PStr "routed");
              ("data",
               PDict [("id", PStr "");
                      ("type", PStr "ip_objects");
                      ("attributes",
                       PDict [("mask", PStr "24");
                              ("ip", PStr "10.0.0.0");
                              ("duration", PInt 60)]);
                      ("meta",
                       PDict [("note", PStr "lab");
                              ("tags", PList [PStr "t1"; PStr "t2"])])])])
      "allowlist/ip_objects" (PDict []) (_headers a_client) "content" in
  run_add (failing_service (DemistoException "Error in API call [422]"))
          a_client args world0
  = (Raise (DemistoException "Error in API call [422]"), mk_world unit tt [q]).
Proof.
  intros args q.
  exact (add_ip_objects_command_request
           scalar_str decimal_int_of_text plain_argToList unit _ a_client args
           (PStr "allowlist") (PStr "10.0.0.0") 60%Z world0 _ tt
           eq_refl eq_refl eq_refl eq_refl).
Defined.

Lemma paged_collection_request_witness :
  let args := [("list_type", PStr "denylist");
               ("page_number", PStr "1"); ("page_size", PStr "2")] in
  handle_paging decimal_int_of_text (PStr "1") (PStr "2")
  = Ok (true, PDict [("page[size]", PInt 2); ("page[number]", PInt 1)])
  /\ sent unit (snd (run_list denylist_service a_client args world0))
     = [mk_request "GET" (PDict []) "denylist/ip_objects"
                   (PDict [("page[size]", PInt 2); ("page[number]", PInt 1)])
                   (_headers a_client) "json"].
Proof.
  intros args.
  exact (paged_collection_request
           scalar_str decimal_int_of_text plain_argToList title_table
           unit denylist_service a_client args (PStr "denylist") 2%Z 1%Z world0
           eq_refl eq_refl eq_refl eq_refl eq_refl eq_refl).
Defined.

Lemma list_command_unpaged_witness :
  run_list empty_service a_client [("list_type", PStr "denylist")] world0
  = (Ok (mk_CommandResults
           (title_table "F5 Silverline IP Objects" [] TABLE_HEADERS_GET_OBJECTS true)
           (Some "F5Silverline") (Some "id")
           (Some (PDict [("IPObjectList", PList []); ("Paging", PList [])]))),
     mk_world unit tt
       [list_request scalar_str a_client (PStr "denylist") (PDict [])]).
Proof.
  exact (list_command_unpaged
           scalar_str decimal_int_of_text plain_argToList title_table
           unit empty_service a_client [("list_type", PStr "denylist")]
           (PStr "denylist") (PDict [("data", PList [])]) (PList []) []
           world0 tt eq_refl eq_refl (or_introl eq_refl) eq_refl eq_refl eq_refl).
Defined.

Lemma list_command_paged_witness :
  let args := [("list_type", PStr "denylist");
               ("page_number", PStr "1"); ("page_size", PStr "2")] in
  option_map outputs
    (match fst (run_list denylist_service a_client args world0) with
     | Ok results => Some results
     | Raise _ => None
     end)
  = Some (Some (PDict [("IPObjectList", PList [ip_object_a; ip_object_b]);
                       ("Paging",
                        PDict [("current_page_number", PStr "1");
                               ("current_page_size", PStr "2");
                               ("last_page_number", PStr "4")])])).
Proof.
  intros args.
  rewrite (list_command_paged
             scalar_str decimal_int_of_text plain_argToList title_table
             unit denylist_service a_client args (PStr "denylist")
             (PDict [("page[size]", PInt 2); ("page[number]", PInt 1)])
             _ (PList [ip_object_a; ip_object_b]) _ (PStr "1") (PStr "4")
             [entry_of "a" "1.2.3.4" "2021-01-01" "2021-01-02";
              entry_of "b" "5.6.7.8" "2021-02-01" "2021-02-02"]
             world0 tt
             eq_refl eq_refl eq_refl eq_refl eq_refl eq_refl eq_refl eq_refl
             eq_refl).
  reflexivity.
Defined.

Lemma list_command_paged_without_links_witness :
  let args := [("list_type", PStr "denylist");
               ("page_number", PStr "1"); ("page_size", PStr "2")] in
  run_list no_links_service a_client args world0
  = (Raise AttributeError,
     mk_world unit tt
       [list_request scalar_str a_client (PStr "denylist")
          (PDict [("page[size]", PInt 2); ("page[number]", PInt 1)])]).
Proof.
  intros args.
  exact (list_command_paged_without_links
           scalar_str decimal_int_of_text plain_argToList title_table
           unit no_links_service a_client args (PStr "denylist")
           (PDict [("page[size]", PInt 2); ("page[number]", PInt 1)])
           (PDict [("data", PList [ip_object_a])]) (PList [ip_object_a]) PNone
           [entry_of "a" "1.2.3.4" "2021-01-01" "2021-01-02"]
           world0 tt
           eq_refl eq_refl eq_refl eq_refl eq_refl eq_refl eq_refl eq_refl
           eq_refl).
Defined.

Lemma list_command_by_ids_output_witness :
  let args := [("list_type", PStr "denylist");
               ("object_id", PList [PStr "a"; PStr "b"]);
               ("page_number", PStr "1"); ("page_size", PStr "2")] in
  let entries := [entry_of "a" "1.2.3.4" "2021-01-01" "2021-01-02";
                  entry_of "b" "5.6.7.8" "2021-02-01" "2021-02-02"] in
  fst (run_list denylist_service a_client args world0)
  = Ok (mk_CommandResults
          (title_table "F5 Silverline IP Objects" entries
                       TABLE_HEADERS_GET_OBJECTS true)
          (Some "F5Silverline") (Some "id")
          (Some (PDict [("IPObjectList", PList [ip_object_a; ip_object_b]);
                        ("Paging", PList [])]))).
Proof.
  intros args entries.
  rewrite (list_command_by_ids_output
             scalar_str decimal_int_of_text plain_argToList title_table
             unit denylist_service a_client args (PStr "denylist")
             (PDict [("page[size]", PInt 2); ("page[number]", PInt 1)])
             [PStr "a"; PStr "b"] entries [ip_object_a; ip_object_b] true
             world0 _ eq_refl eq_refl
             (fun H => match H in (_ = l) return match l with
                                                 | [] => False
                                                 | _ :: _ => True
                                                 end
                       with eq_refl => I end)
             eq_refl eq_refl).
  reflexivity.
Defined.

Lemma read_only_handlers_witness :
  let args := [("list_type", PStr "denylist");
               ("object_id", PList [PStr "a"; PStr "b"])] in
  (exists requests,
      sent unit (snd (run_list denylist_service a_client args world0))
      = ([] ++ requests)%list
      /\ Forall (is_get_of a_client) requests
      /\ (List.length requests <= 2)%nat)
  /\ (exists q,
         sent unit (snd (test_module unit denylist_service a_client world0))
         = ([] ++ [q])%list
         /\ is_get_of a_client q
         /\ req_url_suffix q = "denylist/ip_objects").
Proof.
  intros args.
  pose proof (read_only_handlers
                scalar_str decimal_int_of_text plain_argToList title_table
                unit denylist_service a_client world0) as [Hlist Htest].
  split; [| exact Htest].
  apply (Hlist args (fst (run_list denylist_service a_client args world0))).
  now destruct (run_list denylist_service a_client args world0).
Defined.

Lemma main_reports_every_exception_witness :
  py_get (dict_get some_params "token" PNone) "password" = Ok (PStr "token")
  /\ run_main denylist_service [("token", PDict [("password", PStr "token")])]
              "test-module" [] world0
     = (Raise TypeError, world0)
  /\ run_main denylist_service some_params "test-module" [] world0
     = (Ok (Returned (TextOutput "ok")),
        mk_world unit tt
          [mk_request "GET" (PDict []) "denylist/ip_objects" (PDict [])
                      (_headers a_client) "json"])
  /\ fst (run_main (failing_service (DemistoException "Error in API call [500]"))
                   some_params "f5-silverline-ip-object-delete"
                   [("list_type", PStr "denylist"); ("object_id", PStr "a")] world0)
     = Ok (Failed ("Failed to execute f5-silverline-ip-object-delete command." ++ nl ++
                   "Error:" ++ nl ++ "Error in API call [500]"))
  /\ fst (run_main denylist_service some_params "f5-silverline-ip-object-add"
                   [("list_type", PStr "denylist")] world0)
     = Ok (Failed ("Failed to execute f5-silverline-ip-object-add command." ++ nl ++
                   "Error:" ++ nl ++ "'IP'")).
Proof.
  split; [reflexivity |]. split; [| split; [| split]].
  - exact (proj1 (main_reports_every_exception
                    scalar_str decimal_int_of_text plain_argToList title_table
                    unit denylist_service join_url exn_text
                    [("token", PDict [("password", PStr "token")])]
                    "test-module" [] world0 (PStr "token") eq_refl)
                 TypeError eq_refl).
  - destruct (proj2 (main_reports_every_exception
                       scalar_str decimal_int_of_text plain_argToList title_table
                       unit denylist_service join_url exn_text
                       some_params "test-module" [] world0 (PStr "token") eq_refl)
                    "https://portal.f5silverline.com/api/v1/ip_lists" eq_refl)
      as [Htest _].
    rewrite (Htest eq_refl). reflexivity.
  - destruct (proj2 (main_reports_every_exception
                       scalar_str decimal_int_of_text plain_argToList title_table
                       unit
                       (failing_service (DemistoException "Error in API call [500]"))
                       join_url exn_text
                       some_params "f5-silverline-ip-object-delete"
                       [("list_type", PStr "denylist"); ("object_id", PStr "a")]
                       world0 (PStr "token") eq_refl)
                    "https://portal.f5silverline.com/api/v1/ip_lists" eq_refl)
      as [_ [_ [_ [Hdelete _]]]].
    rewrite (Hdelete eq_refl). reflexivity.
  - destruct (proj2 (main_reports_every_exception
                       scalar_str decimal_int_of_text plain_argToList title_table
                       unit denylist_service join_url exn_text
                       some_params "f5-silverline-ip-object-add"
                       [("list_type", PStr "denylist")]
                       world0 (PStr "token") eq_refl)
                    "https://portal.f5silverline.com/api/v1/ip_lists" eq_refl)
      as [_ [_ [Hadd _]]].
    rewrite (Hadd eq_refl). reflexivity.
Defined.

Lemma main_unknown_command_witness :
  py_get (dict_get some_params "token" PNone) "password" = Ok (PStr "token")
  /\ join_url (dict_get some_params "url" PNone) BASE_URL
     = Ok "https://portal.f5silverline.com/api/v1/ip_lists"
  /\ known_command "f5-silverline-ip-object-update" = false
  /\ run_main denylist_service some_params "f5-silverline-ip-object-update"
              [("list_type", PStr "denylist")] world0
     = (Ok (Failed ("Failed to execute f5-silverline-ip-object-update command." ++ nl ++
                    "Error:" ++ nl ++
                    "f5-silverline-ip-object-update is not an existing F5 Silverline command")),
        world0).
Proof.
  split; [reflexivity | split; [reflexivity | split; [reflexivity |]]].
  exact (main_unknown_command
           scalar_str decimal_int_of_text plain_argToList title_table
           unit denylist_service join_url exn_text
           some_params "f5-silverline-ip-object-update"
           [("list_type", PStr "denylist")] world0 (PStr "token")
           "https://portal.f5silverline.com/api/v1/ip_lists"
           eq_refl eq_refl eq_refl).
Defined.

Lemma main_requests_witness :
  let args := [("list_type", PStr "denylist"); ("IP", PStr "1.2.3.4")] in
  py_get (dict_get some_params "token" PNone) "password" = Ok (PStr "token")
  /\ exists requests,
      sent unit (snd (run_main denylist_service some_params
                               "f5-silverline-ip-object-add" args world0))
      = ([] ++ requests)%list
      /\ Forall (fun q =>
                   req_headers q
                   = PDict [("X-Authorization-Token", PStr "token");
                            ("Content-Type", PStr "application/json")]
                   /\ req_method q = "POST")
                requests.
Proof.
  intros args. split; [reflexivity |].
  apply (main_requests
           scalar_str decimal_int_of_text plain_argToList title_table
           unit denylist_service join_url exn_text
           some_params "f5-silverline-ip-object-add" args world0 _
           (fst (run_main denylist_service some_params
                          "f5-silverline-ip-object-add" args world0))
           (PStr "token") eq_refl).
  now destruct (run_main denylist_service some_params
                         "f5-silverline-ip-object-add" args world0).
Defined.

Lemma main_without_token_witness :
  is_dict (dict_get [("url", PStr "https://portal.f5silverline.com")] "token" PNone)
  = false
  /\ run_main denylist_service [("url", PStr "https://portal.f5silverline.com")]
              "test-module" [] world0
     = (Raise AttributeError, world0).
Proof.
  split; [reflexivity |].
  exact (main_without_token
           scalar_str decimal_int_of_text plain_argToList title_table
           unit denylist_service join_url exn_text
           [("url", PStr "https://portal.f5silverline.com")]
           "test-module" [] world0 eq_refl).
Defined.

Lemma add_paging_to_outputs_returns_witness :
  let links := [("self", PStr "https://h/ip_objects?page[number]=2&page[size]=5")] in
  add_paging_to_outputs (PDict links) (PInt 2) = Ok (PStr "2", PStr "2")
  /\ (exists link g,
         dict_get links "self" PNone = PStr link
         /\ re_search_PAGE_NUMBER_PATTERN link = Some g
         /\ page_value g = true
         /\ PStr "2" = PStr g)
  /\ PStr "2" = PStr "2".
Proof.
  intros links. split; [reflexivity |].
  exact (add_paging_to_outputs_returns links (PInt 2) (PStr "2") (PStr "2")
                                       eq_refl).
Defined.

Lemma list_command_paged_empty_witness :
  let args := [("list_type", PStr "denylist");
               ("page_number", PStr "3"); ("page_size", PStr "5")] in
  run_list empty_service a_client args world0
  = (Ok (mk_CommandResults
           NO_RESULTS_MESSAGE (Some "F5Silverline") (Some "id")
           (Some (PDict [("IPObjectList", PList []); ("Paging", PList [])]))),
     mk_world unit tt
       [list_request scalar_str a_client (PStr "denylist")
          (PDict [("page[size]", PInt 5); ("page[number]", PInt 3)])]).
Proof.
  intros args.
  exact (list_command_paged_empty
           scalar_str decimal_int_of_text plain_argToList title_table
           unit empty_service a_client args (PStr "denylist")
           (PDict [("page[size]", PInt 5); ("page[number]", PInt 3)])
           (PDict [("data", PList [])]) (PList []) world0 tt
           eq_refl eq_refl eq_refl eq_refl eq_refl eq_refl eq_refl).
Defined.

(** * Examples *)

Example search_first_parameter :
  re_search_PAGE_NUMBER_PATTERN "https://h/ip_objects?page[number]=3&page[size]=5"
  = Some "3".
Proof. reflexivity. Qed.

Example search_last_parameter :
  re_search_PAGE_NUMBER_PATTERN "https://h/ip_objects?page[size]=5&page[number]=3"
  = None.
Proof. reflexivity. Qed.

Example search_takes_text_up_to_amp :
  re_search_PAGE_NUMBER_PATTERN "https://h/ip_objects?page[number]=35x&page[size]=5"
  = Some "35x".
Proof. reflexivity. Qed.

Example list_first_page :
  option_map readable_output
    (match fst (run_list denylist_service a_client
                  [("list_type", PStr "denylist");
                   ("page_number", PStr "1"); ("page_size", PStr "2")]
                  world0) with
     | Ok results => Some results
     | Raise _ => None
     end)
  = Some ("### F5 Silverline IP Objects" ++ nl ++ "2 rows" ++ nl ++
          "Current page number: 1" ++ nl ++ " " ++
          "Last page number: 4" ++ nl ++
          "Current page size: 2").
Proof. reflexivity. Qed.
